(** * The online boutique frontend: server construction

    A shallow embedding of [examples/online_boutique/frontend/frontend.go]:
    the platform profile, the construction of the [Server] by [NewServer]
    (dependency wiring, environment detection, hostname lookup, route table,
    middleware chain) and the handler mounted on the static route.

    Go strings are byte strings ([string]); a Go result pair [(v, err)] is a
    pair whose second component is [option error] ([None] is [nil]).  The
    calls that [NewServer] makes to its surroundings (the component registry,
    the process environment, the resolver, the loggers) are recorded, in
    order, in a trace of events. *)

From Stdlib Require Import String Ascii List Bool Arith NArith ZArith Lia.
Import ListNotations.
Local Open Scope string_scope.
Local Open Scope list_scope.

(** ** Byte strings as the Go library sees them *)

Module Strings.

Definition byte_val (c : ascii) : N := N_of_ascii c.

(** [c < utf8.RuneSelf] *)
Definition isASCII (c : ascii) : bool := (byte_val c <? 128)%N.

(** ['A' <= c && c <= 'Z'] *)
Definition isUpper (c : ascii) : bool :=
  ((65 <=? byte_val c) && (byte_val c <=? 90))%N.

(** [c += 'a' - 'A'] on an upper-case byte *)
Definition lowerByte (c : ascii) : ascii :=
  if isUpper c then ascii_of_N (byte_val c + 32) else c.

Fixpoint all (p : ascii -> bool) (s : string) : bool :=
  match s with
  | EmptyString => true
  | String c s' => p c && all p s'
  end.

Fixpoint map (f : ascii -> ascii) (s : string) : string :=
  match s with
  | EmptyString => EmptyString
  | String c s' => String (f c) (map f s')
  end.

(** What is left of [s] after the prefix [p], when [s] starts with it. *)
Fixpoint cutPrefix (s p : string) {struct p} : option string :=
  match p with
  | EmptyString => Some s
  | String a p' =>
      match s with
      | EmptyString => None
      | String b s' => if Ascii.eqb a b then cutPrefix s' p' else None
      end
  end.

(** [strings.HasPrefix] *)
Definition HasPrefix (s p : string) : bool :=
  match cutPrefix s p with Some _ => true | None => false end.

(** [strings.TrimPrefix] *)
Definition TrimPrefix (s p : string) : string :=
  match cutPrefix s p with Some rest => rest | None => s end.

(** [strings.HasSuffix] *)
Definition HasSuffix (s suf : string) : bool :=
  Nat.leb (String.length suf) (String.length s)
  && (substring (String.length s - String.length suf) (String.length suf) s
      =? suf).

(** [strings.TrimSuffix] *)
Definition TrimSuffix (s suf : string) : string :=
  if HasSuffix s suf
  then substring 0 (String.length s - String.length suf) s
  else s.

(** The last byte of a string, [s[len(s)-1]]. *)
Fixpoint last (s : string) : option ascii :=
  match s with
  | EmptyString => None
  | String c EmptyString => Some c
  | String _ s' => last s'
  end.

(** [strings.Split(s, "/")] *)
Fixpoint splitSlash (s : string) : list string :=
  match s with
  | EmptyString => [EmptyString]
  | String c s' =>
      if Ascii.eqb c "/" then EmptyString :: splitSlash s'
      else match splitSlash s' with
           | e :: es => String c e :: es
           | [] => [String c EmptyString]
           end
  end.

(** [strings.Join(elems, "/")] *)
Fixpoint joinSlash (elems : list string) : string :=
  match elems with
  | [] => EmptyString
  | [e] => e
  | e :: es => (e ++ "/" ++ joinSlash es)%string
  end.

Section ToLower.
(** [strings.Map(unicode.ToLower, s)], the path [strings.ToLower] takes
    on a string that holds a byte outside ASCII.  The Unicode case
    tables are not part of this development. *)
Variable unicode_ToLower : string -> string.

(** [strings.ToLower]: ASCII-only strings are lowered byte by byte. *)
Definition ToLower (s : string) : string :=
  if all isASCII s then map lowerByte s else unicode_ToLower s.
End ToLower.

End Strings.

(** ** The platform profile *)

Record platformDetails := mkPlatformDetails {
  css : string;
  provider : string
}.

(** The zero value [platformDetails{}]. *)
Definition platformDetails_zero : platformDetails :=
  {| css := ""; provider := "" |}.

(** [func (plat *platformDetails) setPlatformDetails(env string)]: the
    receiver is updated in place; the update is returned. *)
Definition setPlatformDetails (plat : platformDetails) (env : string)
  : platformDetails :=
  if env =? "gcp" then
    let plat := {| css := css plat; provider := "Google Cloud" |} in
    {| css := "gcp-platform"; provider := provider plat |}
  else
    let plat := {| css := css plat; provider := "local" |} in
    {| css := "local"; provider := provider plat |}.

Definition validEnvs : list string := ["local"; "gcp"].

(** Modelled from the spec: [stringinSlice], the helper that [NewServer]
    calls to validate [ENV_PLATFORM] and that is declared in another file of
    the package.  The spec describes the test as "not a member of the
    recognized set": membership of the value in the slice. *)
Fixpoint stringinSlice (slice : list string) (val : string) : bool :=
  match slice with
  | [] => false
  | item :: rest => if item =? val then true else stringinSlice rest val
  end.

(** ** [unicode/utf8], [path], [io/fs] and [embed]: the library code under
    the static route *)

Module utf8.
Import Strings.

Definition between (lo hi : N) (c : ascii) : bool :=
  ((lo <=? byte_val c) && (byte_val c <=? hi))%N.

(** A continuation byte, [0x80..0xBF]. *)
Definition cont : ascii -> bool := between 128 191.

(** The range the second byte must lie in, by leading byte (the
    [acceptRanges] table of the library). *)
Definition second (c0 : ascii) : ascii -> bool :=
  if between 224 224 c0 then between 160 191
  else if between 237 237 c0 then between 128 159
  else if between 240 240 c0 then between 144 191
  else if between 244 244 c0 then between 128 143
  else cont.

(** [utf8.ValidString] *)
Fixpoint ValidString (s : string) : bool :=
  match s with
  | EmptyString => true
  | String c0 r0 =>
      if isASCII c0 then ValidString r0
      else
        match r0 with
        | EmptyString => false
        | String c1 r1 =>
            if between 194 223 c0 then cont c1 && ValidString r1
            else
              match r1 with
              | EmptyString => false
              | String c2 r2 =>
                  if between 224 239 c0
                  then second c0 c1 && cont c2 && ValidString r2
                  else
                    match r2 with
                    | EmptyString => false
                    | String c3 r3 =>
                        if between 240 244 c0
                        then second c0 c1 && cont c2 && cont c3
                             && ValidString r3
                        else false
                    end
              end
        end
  end.
End utf8.

Module path.
Import Strings.

(** One element of the path, as the loop of [path.Clean] handles it:
    [out] is the stack of the elements written so far, last one first.
    An empty element and [.] are skipped; [..] removes the last element
    written, or is kept when the path is not rooted and there is nothing
    to remove. *)
Definition cleanStep (rooted : bool) (out : list string) (elem : string)
  : list string :=
  if (elem =? "") || (elem =? ".") then out
  else if elem =? ".." then
    match out with
    | top :: rest =>
        if top =? ".." then (if rooted then out else elem :: out) else rest
    | [] => if rooted then [] else [elem]
    end
  else elem :: out.

(** [path.Clean] *)
Definition Clean (p : string) : string :=
  if p =? "" then "."
  else
    let rooted := HasPrefix p "/" in
    let out := rev (fold_left (cleanStep rooted) (splitSlash p) []) in
    if rooted then ("/" ++ joinSlash out)%string
    else match out with
         | [] => "."
         | _ => joinSlash out
         end.

(** [path.Join(a, b)] *)
Definition Join (a b : string) : string :=
  if (a =? "") && (b =? "") then ""
  else if a =? "" then Clean b
  else Clean (a ++ "/" ++ b)%string.

(** [path.Base] *)
Definition Base (p : string) : string :=
  if p =? "" then "."
  else
    match rev (filter (fun e => negb (e =? "")) (splitSlash p)) with
    | [] => "/"
    | e :: _ => e
    end.
End path.

Module fs.
Import Strings.

Inductive PathErr := ErrInvalid | ErrNotExist.

Definition validElem (elem : string) : bool :=
  negb ((elem =? "") || (elem =? ".") || (elem =? "..")).

(** [fs.ValidPath] *)
Definition ValidPath (name : string) : bool :=
  if negb (utf8.ValidString name) then false
  else if name =? "." then true
  else forallb validElem (splitSlash name).

(** What a name of a file system opens to. *)
Inductive Node :=
| File (data : string)
| Dir.

Definition isDir (n : Node) : bool :=
  match n with Dir => true | File _ => false end.

(** An [embed.FS]: the embedded files and directories by full name.  (The
    library keeps them sorted and searches by bisection; names are
    unique, so the first match is the match.) *)
Definition embed_FS := list (string * Node).

Fixpoint find (files : embed_FS) (name : string) : option Node :=
  match files with
  | [] => None
  | (n, node) :: rest => if n =? name then Some node else find rest name
  end.

(** [embed.FS.lookup] *)
Definition lookup (files : embed_FS) (name : string) : option Node :=
  if negb (ValidPath name) then None
  else if name =? "." then Some Dir
  else find files name.

(** The [fs.FS] values this program builds. *)
Inductive FS :=
| Embed (files : embed_FS)
| subFS (fsys : FS) (dir : string).

(** [fs.FS.Open], by implementation: [embed.FS.Open] and [subFS.Open]
    (whose [fullName] refuses an invalid name and joins the rest onto
    its directory). *)
Fixpoint Open (fsys : FS) (name : string) : PathErr + Node :=
  match fsys with
  | Embed files =>
      match lookup files name with
      | None => inl ErrNotExist
      | Some node => inr node
      end
  | subFS fsys' dir =>
      if negb (ValidPath name) then inl ErrInvalid
      else Open fsys' (path.Join dir name)
  end.

(** [fs.Sub]; the failure is the [PathError] with [ErrInvalid]. *)
Definition Sub (fsys : FS) (dir : string) : PathErr + FS :=
  if negb (ValidPath dir) then inl ErrInvalid
  else if dir =? "." then inr fsys
  else inr (subFS fsys dir).
End fs.

(** ** Handlers, routes and the middleware chain *)

Definition dquote : string := String (ascii_of_nat 34) "".
Definition newline : string := String (ascii_of_nat 10) "".

Definition MethodGet : string := "GET".
Definition MethodHead : string := "HEAD".
Definition MethodPost : string := "POST".

(** The handler methods of [*Server] that [NewServer] mounts; their bodies
    are in other files of the package. *)
Inductive ServerMethod :=
| homeHandler | productHandler | viewCartHandler | addToCartHandler
| emptyCartHandler | setCurrencyHandler | logoutHandler | placeOrderHandler.

(** A [func(http.ResponseWriter, *http.Request)]: a method value of the
    server under construction, or a function literal that prints a fixed
    body. *)
Inductive HandlerFn :=
| MethodValue (m : ServerMethod)
| FprintFunc (body : string).

(** [http.FS(fsys)] *)
Inductive FileSystem := ioFS (fsys : fs.FS).

(** The [http.Handler] values mounted on routes. *)
Inductive RouteHandler :=
| HandlerFunc (fn : HandlerFn)
| InstrumentHandler (label : string) (h : RouteHandler)
| StripPrefix (prefix : string) (h : RouteHandler)
| FileServer (root : FileSystem).

Inductive Matcher :=
| Path (tpl : string)
| PathPrefix (tpl : string).

(** A [mux.Route]: what it matches, its handler, and the methods it is
    restricted to ([[]]: no method matcher). *)
Record Route := mkRoute {
  route_matcher : Matcher;
  route_handler : RouteHandler;
  route_methods : list string
}.

(** A [mux.Router]: its routes in registration order. *)
Definition Router := list Route.

Definition NewRouter : Router := [].

(** [r.Handle(path, handler)] *)
Definition Handle (tpl : string) (h : RouteHandler) : Route :=
  mkRoute (Path tpl) h [].

(** [r.HandleFunc(path, f)] *)
Definition HandleFunc (tpl : string) (f : HandlerFn) : Route :=
  mkRoute (Path tpl) (HandlerFunc f) [].

(** [r.PathPrefix(tpl).Handler(handler)] *)
Definition PathPrefixHandler (tpl : string) (h : RouteHandler) : Route :=
  mkRoute (PathPrefix tpl) h [].

(** [route.Methods(methods...)] *)
Definition Methods (methods : list string) (route : Route) : Route :=
  mkRoute (route_matcher route) (route_handler route) methods.

(** The route is part of the router from the call that creates it. *)
Definition register (r : Router) (route : Route) : Router := r ++ [route].

(** ** The surroundings of [NewServer] *)

Inductive error := mkError (msg : string).

Inductive Service :=
| Catalog | Currency | Cart | Recommendation | Checkout | Shipping | Ad.

(** A component handle, as the registry hands it out. *)
Definition Handle_t := nat.

(** [weaver.Instance]: what [weaver.Get[T](root)] returns for the
    interface [T] of each service. *)
Record Instance := mkInstance {
  Get : Service -> Handle_t * option error
}.

(** The process and the network. *)
Record World := mkWorld {
  Getenv : string -> string;
  LookupHost : string -> list string * option error;
  Hostname : string * option error
}.

(** The handler chain above the router. [ensureSessionID] and
    [newLogHandler] are declared in another file of the package. *)
Inductive Handler :=
| RouterHandler (r : Router)
| ensureSessionID (next : Handler)
| newLogHandler (root : Instance) (next : Handler)
| otelhttp_NewHandler (handler : Handler) (operation : string).

Inductive LogValue :=
| LogString (s : string)
| LogStrings (l : list string).

Inductive Event :=
| EvGet (svc : Service)
| EvGetenv (key : string)
| EvPrintln (line : string)
| EvLookupHost (host : string)
| EvDebug (msg : string) (attrs : list (string * LogValue))
| EvHostname.

(** Computations that log their calls and may return early with an
    error. *)
Definition M (A : Type) : Type := (list Event * (error + A))%type.

Definition ret {A} (a : A) : M A := ([], inr a).

Definition fail {A} (e : error) : M A := ([], inl e).

Definition bind {A B} (m : M A) (k : A -> M B) : M B :=
  match m with
  | (t, inl e) => (t, inl e)
  | (t, inr a) => let (t', r) := k a in (t ++ t', r)
  end.

Definition call {A} (ev : Event) (a : A) : M A := ([ev], inr a).

Declare Scope go_scope.
Delimit Scope go_scope with go.
Notation "x <- m ;; k" := (bind m (fun x => k))
  (at level 100, m at next level, right associativity) : go_scope.
Notation "' pat <- m ;; k" := (bind m (fun x => match x with pat => k end))
  (at level 100, pat pattern, m at next level, right associativity)
  : go_scope.
Notation "m ;;; k" := (bind m (fun _ => k))
  (at level 100, right associativity) : go_scope.

(** [v, err := f(); if err != nil { return nil, err }] *)
Definition orReturn {A} (m : M (A * option error)) : M A :=
  bind m (fun r =>
            match snd r with
            | Some err => fail err
            | None => ret (fst r)
            end).

Definition isNil {A} (x : option A) : bool :=
  match x with None => true | Some _ => false end.

Definition weaver_Get (root : Instance) (svc : Service)
  : M (Handle_t * option error) :=
  call (EvGet svc) (Get root svc).

Definition os_Getenv (w : World) (key : string) : M string :=
  call (EvGetenv key) (Getenv w key).

Definition net_LookupHost (w : World) (host : string)
  : M (list string * option error) :=
  call (EvLookupHost host) (LookupHost w host).

Definition os_Hostname (w : World) : M (string * option error) :=
  call EvHostname (Hostname w).

Definition fmt_Println (line : string) : M unit := call (EvPrintln line) tt.

(** [root.Logger().Debug(msg, attrs...)] *)
Definition Logger_Debug (msg : string) (attrs : list (string * LogValue))
  : M unit :=
  call (EvDebug msg attrs) tt.

(** ** The server *)

Record Server := mkServer {
  handler : option Handler;
  root : Instance;
  platform : platformDetails;
  hostname : string;
  catalogService : Handle_t;
  currencyService : Handle_t;
  cartService : Handle_t;
  recommendationService : Handle_t;
  checkoutService : Handle_t;
  shippingService : Handle_t;
  adService : Handle_t
}.

(** [s.handler = h] *)
Definition set_handler (s : Server) (h : Handler) : Server :=
  mkServer (Some h) (root s) (platform s) (hostname s)
    (catalogService s) (currencyService s) (cartService s)
    (recommendationService s) (checkoutService s) (shippingService s)
    (adService s).

(** The error of [fs.Sub], a [*fs.PathError]. *)
Definition subError (dir : string) : error :=
  mkError ("sub " ++ dir ++ ": invalid argument").

(** The helper of [NewServer] that adds a handler with HTTP metric
    instrumentation. *)
Definition handleInstrumented (tpl label : string) (fn : HandlerFn) : Route :=
  Handle tpl (InstrumentHandler label (HandlerFunc fn)).

Section NewServer.
(** The non-ASCII path of [strings.ToLower]. *)
Variable unicode_ToLower : string -> string.
(** The files embedded by [//go:embed static/*]. *)
Variable staticFS : fs.embed_FS.

Local Open Scope go_scope.

(** [NewServer], up to its two results. *)
Definition newServer (w : World) (root : Instance) : M Server :=
  (* Setup the services. *)
  catalogService <- orReturn (weaver_Get root Catalog) ;;
  currencyService <- orReturn (weaver_Get root Currency) ;;
  cartService <- orReturn (weaver_Get root Cart) ;;
  recommendationService <- orReturn (weaver_Get root Recommendation) ;;
  checkoutService <- orReturn (weaver_Get root Checkout) ;;
  shippingService <- orReturn (weaver_Get root Shipping) ;;
  adService <- orReturn (weaver_Get root Ad) ;;
  (* Find out where we're running. *)
  env <- os_Getenv w "ENV_PLATFORM" ;;
  env <- (if (env =? "") || negb (stringinSlice validEnvs env)
          then fmt_Println "env platform is either empty or invalid" ;;;
               ret "local"
          else ret env) ;;
  (* Autodetect GCP *)
  '(addrs, err) <- net_LookupHost w "metadata.google.internal." ;;
  env <- (if isNil err && (Z.of_nat (List.length addrs) >=? 0)%Z
          then Logger_Debug
                 "Detected Google metadata server, setting ENV_PLATFORM to GCP."
                 [("address", LogStrings addrs)] ;;;
               ret "gcp"
          else ret env) ;;
  Logger_Debug "ENV_PLATFORM" [("platform", LogString env)] ;;;
  let platform := platformDetails_zero in
  let platform :=
    setPlatformDetails platform (Strings.ToLower unicode_ToLower env) in
  '(hostname, err) <- os_Hostname w ;;
  hostname <- (if isNil err then ret hostname
               else Logger_Debug
                      ("cannot get hostname for frontend: using "
                       ++ dquote ++ "unknown" ++ dquote)%string [] ;;;
                    ret "unknown") ;;
  (* Create the server. *)
  let s := mkServer None root platform hostname
             catalogService currencyService cartService
             recommendationService checkoutService shippingService
             adService in
  (* Setup the handler. *)
  match fs.Sub (fs.Embed staticFS) "static" with
  | inl _ => fail (subError "static")
  | inr staticHTML =>
      let r := NewRouter in
      let r := register r (Methods [MethodGet; MethodHead]
                 (handleInstrumented "/" "home" (MethodValue homeHandler))) in
      let r := register r (Methods [MethodGet; MethodHead]
                 (handleInstrumented "/product/{id}" "product"
                    (MethodValue productHandler))) in
      let r := register r (Methods [MethodGet; MethodHead]
                 (handleInstrumented "/cart" "cart_view"
                    (MethodValue viewCartHandler))) in
      let r := register r (Methods [MethodPost]
                 (handleInstrumented "/cart" "cart_add"
                    (MethodValue addToCartHandler))) in
      let r := register r (Methods [MethodPost]
                 (handleInstrumented "/cart/empty" "cart_empty"
                    (MethodValue emptyCartHandler))) in
      let r := register r (Methods [MethodPost]
                 (handleInstrumented "/setCurrency" "setcurrency"
                    (MethodValue setCurrencyHandler))) in
      let r := register r (Methods [MethodGet]
                 (handleInstrumented "/logout" "logout"
                    (MethodValue logoutHandler))) in
      let r := register r (Methods [MethodPost]
                 (handleInstrumented "/cart/checkout" "cart_checkout"
                    (MethodValue placeOrderHandler))) in
      let r := register r (PathPrefixHandler "/static/"
                 (InstrumentHandler "static"
                    (StripPrefix "/static/"
                       (FileServer (ioFS staticHTML))))) in
      let r := register r (handleInstrumented "/robots.txt" "robots"
                 (FprintFunc ("User-agent: *" ++ newline ++ "Disallow: /"))) in
      (* No instrumentation of /healthz *)
      let r := register r (HandleFunc "/healthz" (FprintFunc "ok")) in
      (* Set handler and return. *)
      let handler := RouterHandler r in
      let handler := ensureSessionID handler in
      let handler := newLogHandler root handler in
      let handler := otelhttp_NewHandler handler "http" in
      let s := set_handler s handler in
      ret s
  end.

(** [NewServer(root)]: the calls made, and the pair of a server
    pointer and an error returned. *)
Definition NewServer (w : World) (root : Instance)
  : list Event * (option Server * option error) :=
  match newServer w root with
  | (t, inl err) => (t, (None, Some err))
  | (t, inr s) => (t, (Some s, None))
  end.

End NewServer.

(** ** Serving a request on a route

    A request is a method and a URL path: it carries no header, so the file
    server takes neither its conditional nor its range branches.  A
    response is what was written: a body, a file, a redirect or an error. *)

Record Request := mkRequest {
  Method : string;
  URLPath : string
}.

Inductive Response :=
| RespWrite (body : string)          (* status 200 and a body written *)
| RespContent (body : string)        (* [serveContent]: 200 and the file *)
| RespRedirect (location : string)   (* [localRedirect]: 301 *)
| RespDirList                        (* [dirList]: a directory listing *)
| RespError (e : fs.PathErr)         (* [http.Error] for an open error *)
| RespNotFound.                      (* [http.NotFound] *)

Module http.
Import Strings.

(** [ioFS.Open], the [Open] of [http.FS(fsys)] *)
Definition Open (root : FileSystem) (name : string) : fs.PathErr + fs.Node :=
  match root with
  | ioFS fsys =>
      let name := if name =? "/" then "." else TrimPrefix name "/" in
      fs.Open fsys name
  end.

Definition indexPage : string := "/index.html".

(** [url[len(url)-1] == '/'] *)
Definition endsInSlash (url : string) : bool :=
  match last url with
  | Some c => Ascii.eqb c "/"
  | None => false
  end.

(** [serveContent] on a request without headers: the whole file, and no
    body for [HEAD]. *)
Definition serveContent (r : Request) (data : string) : Response :=
  RespContent (if Method r =? MethodHead then "" else data).

(** [serveFile(w, r, fs, name, redirect)] *)
Definition serveFile (r : Request) (root : FileSystem) (name : string)
    (redirect : bool) : Response :=
  (* redirect .../index.html to .../ *)
  if HasSuffix (URLPath r) indexPage then RespRedirect "./"
  else
    match Open root name with
    | inl err => RespError err
    | inr d =>
        let url := URLPath r in
        (* redirect to canonical path: / at end of directory url *)
        if redirect && fs.isDir d && negb (endsInSlash url)
        then RespRedirect (path.Base url ++ "/")
        else if redirect && negb (fs.isDir d) && endsInSlash url
        then RespRedirect ("../" ++ path.Base url)
        else
          match d with
          | fs.Dir =>
              if negb (endsInSlash url)
              then RespRedirect (path.Base url ++ "/")
              else
                (* use contents of index.html for directory, if present *)
                let index := (TrimSuffix name "/" ++ indexPage)%string in
                match Open root index with
                | inr (fs.File data) => serveContent r data
                | inr fs.Dir => RespDirList
                | inl _ => RespDirList
                end
          | fs.File data => serveContent r data
          end
    end.

(** [fileHandler.ServeHTTP], the handler of [http.FileServer(root)] *)
Definition fileServer (root : FileSystem) (r : Request) : Response :=
  let upath := URLPath r in
  let upath := if HasPrefix upath "/" then upath else ("/" ++ upath)%string in
  let r := mkRequest (Method r) upath in
  serveFile r root (path.Clean upath) true.

(** The handler of [http.StripPrefix(prefix, h)] *)
Definition stripPrefix (prefix : string) (h : Request -> list string * Response)
    (r : Request) : list string * Response :=
  if prefix =? "" then h r
  else
    let p := TrimPrefix (URLPath r) prefix in
    if Nat.ltb (String.length p) (String.length (URLPath r))
    then h (mkRequest (Method r) p)
    else ([], RespNotFound).
End http.

(** Modelled from the spec: [weaver.InstrumentHandler], declared in the
    [weaver] package.  The spec has the instrumentation layer wrap a
    handler with a label used for metrics attribution: the request is
    counted under the label and handed to the wrapped handler. *)
Definition instrument (label : string) (h : Request -> list string * Response)
    (r : Request) : list string * Response :=
  let (counted, resp) := h r in (label :: counted, resp).

Section Serving.
(** What the handler methods of the server answer. *)
Variable serverMethod : ServerMethod -> Request -> Response.

Definition callFn (fn : HandlerFn) (r : Request) : Response :=
  match fn with
  | MethodValue m => serverMethod m r
  | FprintFunc body => RespWrite body
  end.

(** [h.ServeHTTP(w, r)]: the labels the request was counted under by the
    instrumentation, and the response. *)
Fixpoint ServeHTTP (h : RouteHandler) (r : Request)
  : list string * Response :=
  match h with
  | HandlerFunc fn => ([], callFn fn r)
  | InstrumentHandler label h' => instrument label (ServeHTTP h') r
  | StripPrefix prefix h' => http.stripPrefix prefix (ServeHTTP h') r
  | FileServer root => ([], http.fileServer root r)
  end.
End Serving.

(** ** Views of the constructed server *)

(** The router at the bottom of a handler chain. *)
Fixpoint routerOf (h : Handler) : Router :=
  match h with
  | RouterHandler r => r
  | ensureSessionID next => routerOf next
  | newLogHandler _ next => routerOf next
  | otelhttp_NewHandler next _ => routerOf next
  end.

Inductive Layer := BaseRouter | SessionAssignment | Logging | Tracing.

(** The layers of a handler chain, innermost first. *)
Fixpoint layers (h : Handler) : list Layer :=
  match h with
  | RouterHandler _ => [BaseRouter]
  | ensureSessionID next => layers next ++ [SessionAssignment]
  | newLogHandler _ next => layers next ++ [Logging]
  | otelhttp_NewHandler next _ => layers next ++ [Tracing]
  end.

Definition matcherPath (m : Matcher) : string :=
  match m with Path tpl => tpl | PathPrefix tpl => tpl end.

(** The label a route handler is instrumented under, if it is. *)
Definition instrumentLabel (h : RouteHandler) : option string :=
  match h with
  | InstrumentHandler label _ => Some label
  | _ => None
  end.

(** Whether the instrumentation layer occurs anywhere in a handler. *)
Fixpoint instrumented (h : RouteHandler) : bool :=
  match h with
  | InstrumentHandler _ _ => true
  | StripPrefix _ h' => instrumented h'
  | HandlerFunc _ => false
  | FileServer _ => false
  end.

Definition serviceField (s : Server) (svc : Service) : Handle_t :=
  match svc with
  | Catalog => catalogService s
  | Currency => currencyService s
  | Cart => cartService s
  | Recommendation => recommendationService s
  | Checkout => checkoutService s
  | Shipping => shippingService s
  | Ad => adService s
  end.

(** The order in which [NewServer] resolves the services. *)
Definition resolutionOrder : list Service :=
  [Catalog; Currency; Cart; Recommendation; Checkout; Shipping; Ad].

(** The label that environment detection ends with, as [NewServer] logs it
    before building the profile. *)
Definition loggedLabel (t : list Event) : list string :=
  flat_map (fun ev =>
              match ev with
              | EvDebug msg [(key, LogString env)] =>
                  if (msg =? "ENV_PLATFORM") && (key =? "platform")
                  then [env] else []
              | _ => []
              end) t.

(** Every service of the registry resolves. *)
Definition allResolve (root : Instance) : Prop :=
  forall svc, snd (Get root svc) = None.

Definition metadataHost : string := "metadata.google.internal.".

(** The label after the first step of detection, by the value of
    [ENV_PLATFORM]. *)
Definition step1Label (v : string) : string :=
  if (v =? "") || negb (stringinSlice validEnvs v) then "local" else v.

Definition gcpProfile : platformDetails :=
  {| css := "gcp-platform"; provider := "Google Cloud" |}.

Definition localProfile : platformDetails :=
  {| css := "local"; provider := "local" |}.

(** The server of a result pair, when there is one. *)
Definition serverOf (res : option Server * option error) : option Server :=
  fst res.

Definition errorOf (res : option Server * option error) : option error :=
  snd res.

(** The routes of the router under the handler chain of a server. *)
Definition serverRoutes (s : Server) : Router :=
  match handler s with
  | Some h => routerOf h
  | None => []
  end.

(** A route at a glance: path, methods, instrumentation label. *)
Definition routeSummary (route : Route)
  : string * list string * option string :=
  (matcherPath (route_matcher route), route_methods route,
   instrumentLabel (route_handler route)).

(** Sample surroundings: a registry where every service resolves, one
    where a given service does not, and a world by its three answers. *)
Definition registryOK : Instance :=
  mkInstance (fun svc =>
                (match svc with
                 | Catalog => 1 | Currency => 2 | Cart => 3
                 | Recommendation => 4 | Checkout => 5 | Shipping => 6
                 | Ad => 7
                 end, None)).

Definition Service_eqb (a b : Service) : bool :=
  match a, b with
  | Catalog, Catalog | Currency, Currency | Cart, Cart
  | Recommendation, Recommendation | Checkout, Checkout
  | Shipping, Shipping | Ad, Ad => true
  | _, _ => false
  end.

Definition serviceName (svc : Service) : string :=
  match svc with
  | Catalog => "productcatalogservice"
  | Currency => "currencyservice"
  | Cart => "cartservice"
  | Recommendation => "recommendationservice"
  | Checkout => "checkoutservice"
  | Shipping => "shippingservice"
  | Ad => "adservice"
  end.

Definition notFound (svc : Service) : error :=
  mkError ("component not found: " ++ serviceName svc).

Definition registryWithout (missing : list Service) : Instance :=
  mkInstance (fun svc =>
                if existsb (Service_eqb svc) missing
                then (0, Some (notFound svc))
                else Get registryOK svc).

Definition noSuchHost : option error := Some (mkError "no such host").

Definition worldOf (platformVar : string)
    (probe : list string * option error)
    (host : string * option error) : World :=
  mkWorld (fun key => if key =? "ENV_PLATFORM" then platformVar else "")
          (fun _ => probe) host.

Definition sampleAssets : fs.embed_FS :=
  [("static", fs.Dir);
   ("static/a.txt", fs.File "hello");
   ("static/index.html", fs.File "<html></html>");
   ("static/styles", fs.Dir);
   ("static/styles/styles.css", fs.File "body {}")].

(** The label environment detection ends with. *)
Definition detectedLabel (w : World) : string :=
  match snd (LookupHost w metadataHost) with
  | None => "gcp"
  | Some _ => step1Label (Getenv w "ENV_PLATFORM")
  end.

(** The host name the server keeps. *)
Definition keptHostname (w : World) : string :=
  match snd (Hostname w) with
  | None => fst (Hostname w)
  | Some _ => "unknown"
  end.

(** The events of detection that follow the read of [ENV_PLATFORM], up to
    the probe. *)
Definition noticeOnly : list Event :=
  [EvPrintln "env platform is either empty or invalid"].

Definition sampleUni : string -> string := fun s => s.

Definition sampleMethods : ServerMethod -> Request -> Response :=
  fun _ _ => RespWrite "page".

Definition sampleWorld : World :=
  worldOf "local" ([], noSuchHost) ("frontend-0", None).

Definition sampleRun : list Event * (option Server * option error) :=
  NewServer sampleUni sampleAssets sampleWorld registryOK.

(** ** Serving: [Run] *)

(** [weaver.ListenerOptions] *)
Record ListenerOptions := mkListenerOptions {
  LocalAddress : string
}.

(** A network listener, as the instance hands it out. *)
Definition Listener_t := nat.

(** What [Run] needs of its surroundings: the listener an instance gives
    for a name and options, and the error [http.Serve] returns with when
    serving on a listener ends. *)
Record Network := mkNetwork {
  Listener : Instance -> string -> ListenerOptions -> Listener_t * option error;
  Serve : Listener_t -> option Handler -> error
}.

Inductive RunEvent :=
| EvListener (name : string) (opts : ListenerOptions)
| EvAvailable (msg : string) (lis : Listener_t)
| EvServe (lis : Listener_t) (h : option Handler).

(** [func (s *Server) Run(localAddr string) error]: the calls made, and
    the error returned. *)
Definition Run (net : Network) (s : Server) (localAddr : string)
  : list RunEvent * option error :=
  let opts := mkListenerOptions localAddr in
  let (lis, err) := Listener net (root s) "boutique" opts in
  match err with
  | Some e => ([EvListener "boutique" opts], Some e)
  | None =>
      ([EvListener "boutique" opts;
        EvAvailable "Frontend available" lis;
        EvServe lis (handler s)],
       Some (Serve net lis (handler s)))
  end.

(** ** More views *)

(** The handler [NewServer] mounts on the static route, by the file system
    it serves. *)
Definition staticHandler (fsys : fs.FS) : RouteHandler :=
  InstrumentHandler "static"
    (StripPrefix "/static/" (FileServer (ioFS fsys))).

(** The calls to the registry, the process and the network, as opposed to
    what is printed and logged. *)
Definition isCall (ev : Event) : bool :=
  match ev with
  | EvGet _ | EvGetenv _ | EvLookupHost _ | EvHostname => true
  | EvPrintln _ | EvDebug _ _ => false
  end.

Definition isDebug (ev : Event) : bool :=
  match ev with
  | EvDebug _ _ => true
  | _ => false
  end.

Definition isPrintln (ev : Event) : bool :=
  match ev with
  | EvPrintln _ => true
  | _ => false
  end.

Definition platformNotice : string :=
  "env platform is either empty or invalid".

Definition detectedMessage : string :=
  "Detected Google metadata server, setting ENV_PLATFORM to GCP.".

Definition hostnameMessage : string :=
  ("cannot get hostname for frontend: using "
   ++ dquote ++ "unknown" ++ dquote)%string.

Definition sampleNetwork (refuse : bool) : Network :=
  mkNetwork (fun _ _ _ =>
               if refuse then (0, Some (mkError "address already in use"))
               else (9, None))
            (fun _ _ => mkError "use of closed network connection").

(** * Properties *)

(** ** Running [NewServer] *)

Ltac run_NewServer :=
  unfold NewServer, newServer, orReturn, weaver_Get, os_Getenv,
    net_LookupHost, os_Hostname, fmt_Println, Logger_Debug, call, bind.

Lemma len_geb_0 {A} (l : list A) : (Z.of_nat (List.length l) >=? 0)%Z = true.
Proof. apply Z.geb_le. lia. Qed.

Lemma stringinSlice_In (slice : list string) (val : string) :
  stringinSlice slice val = true <-> In val slice.
Proof.
  induction slice as [|item rest IH]; simpl.
  - split; [discriminate | tauto].
  - destruct (String.eqb_spec item val) as [->|Hne].
    + split; auto.
    + rewrite IH. split; [auto | intros [H|H]; [contradiction | exact H]].
Qed.

(** With every service resolved, construction succeeds, and the label, the
    profile, the host name and the handles are as follows. *)
Lemma NewServer_resolved uni sfs w root :
  allResolve root ->
  exists t s,
    NewServer uni sfs w root = (t, (Some s, None))
    /\ loggedLabel t = [detectedLabel w]
    /\ platform s
       = setPlatformDetails platformDetails_zero
           (Strings.ToLower uni (detectedLabel w))
    /\ hostname s = keptHostname w
    /\ (forall svc, serviceField s svc = fst (Get root svc)).
Proof.
  intros Hall. run_NewServer. rewrite !Hall.
  unfold detectedLabel, keptHostname, step1Label, metadataHost.
  destruct ((Getenv w "ENV_PLATFORM" =? "")
            || negb (stringinSlice validEnvs (Getenv w "ENV_PLATFORM")));
    destruct (LookupHost w "metadata.google.internal.") as [addrs [e|]];
    destruct (Hostname w) as [hn [e'|]];
    rewrite ?len_geb_0;
    cbn -[Strings.ToLower setPlatformDetails loggedLabel];
    do 2 eexists; (split; [reflexivity|]);
    cbn -[Strings.ToLower setPlatformDetails];
    repeat split; try reflexivity; intros []; reflexivity.
Qed.

(** The first service that does not resolve, if any. *)
Lemma first_failure (root : Instance) (order : list Service) :
  (forall svc, In svc order -> snd (Get root svc) = None)
  \/ exists pre svc post e,
       order = pre ++ svc :: post
       /\ (forall s, In s pre -> snd (Get root s) = None)
       /\ snd (Get root svc) = Some e.
Proof.
  induction order as [|svc order IH].
  - left. intros svc [].
  - destruct (snd (Get root svc)) as [e|] eqn:Hsvc.
    + right. exists [], svc, order, e. repeat split; auto. intros s [].
    + destruct IH as [Hall | (pre & svc' & post & e & -> & Hpre & Hfail)].
      * left. intros s [<-|Hin]; auto.
      * right. exists (svc :: pre), svc', post, e.
        repeat split; auto. intros s [<-|Hin]; auto.
Qed.

Lemma resolutionOrder_complete (svc : Service) : In svc resolutionOrder.
Proof. destruct svc; simpl; tauto. Qed.

(** Construction stops at the first service that does not resolve. *)
Lemma NewServer_failure uni sfs w root pre svc post e :
  resolutionOrder = pre ++ svc :: post ->
  (forall s, In s pre -> snd (Get root s) = None) ->
  snd (Get root svc) = Some e ->
  NewServer uni sfs w root = (map EvGet (pre ++ [svc]), (None, Some e)).
Proof.
  unfold resolutionOrder. intros Hsplit Hpre Hsvc.
  repeat (destruct pre as [|? pre]; simpl in Hsplit;
          [ injection Hsplit as <- <-
          | injection Hsplit as <- Hsplit ]);
    try (destruct pre; discriminate Hsplit);
    run_NewServer;
    repeat (rewrite Hpre by (simpl; tauto); cbn [snd fst ret fail app]);
    rewrite Hsvc; reflexivity.
Qed.

(** Whether construction fails, and with what error, is decided by the
    registry alone. *)
Lemma NewServer_error_by_registry uni sfs w uni' sfs' w' root :
  errorOf (snd (NewServer uni sfs w root))
  = errorOf (snd (NewServer uni' sfs' w' root)).
Proof.
  destruct (first_failure root resolutionOrder)
    as [Hall | (pre & svc & post & e & Hsplit & Hpre & Hsvc)].
  - assert (Hres : allResolve root)
      by (intro svc; apply Hall, resolutionOrder_complete).
    destruct (NewServer_resolved uni sfs w root Hres) as (t & s & -> & _).
    destruct (NewServer_resolved uni' sfs' w' root Hres) as (t' & s' & -> & _).
    reflexivity.
  - rewrite (NewServer_failure uni sfs w root pre svc post e Hsplit Hpre Hsvc).
    rewrite (NewServer_failure uni' sfs' w' root pre svc post e Hsplit Hpre Hsvc).
    reflexivity.
Qed.

(** A server is returned only when every service resolved. *)
Lemma NewServer_server_inv uni sfs w root t s err :
  NewServer uni sfs w root = (t, (Some s, err)) -> allResolve root.
Proof.
  intros Hrun.
  destruct (first_failure root resolutionOrder)
    as [Hall | (pre & svc & post & e & Hsplit & Hpre & Hsvc)].
  - intro svc. apply Hall, resolutionOrder_complete.
  - rewrite (NewServer_failure uni sfs w root pre svc post e Hsplit Hpre Hsvc)
      in Hrun.
    discriminate Hrun.
Qed.

(** The server [NewServer] returned, field by field. *)
Ltac invert_NewServer Hrun :=
  let Hall := fresh "Hall" in
  pose proof (NewServer_server_inv _ _ _ _ _ _ _ Hrun) as Hall;
  revert Hrun; run_NewServer; rewrite !Hall;
  match goal with
  | |- context [Getenv ?w ?k] =>
      destruct ((Getenv w k =? "")
                || negb (stringinSlice validEnvs (Getenv w k)))
  end;
  match goal with
  | |- context [LookupHost ?w ?h] => destruct (LookupHost w h) as [? [?|]]
  end;
  match goal with
  | |- context [Hostname ?w] => destruct (Hostname w) as [? [?|]]
  end;
  rewrite ?len_geb_0; cbn -[Strings.ToLower setPlatformDetails];
  intros Hrun; injection Hrun as <- <- <-.

(** ** The platform profile *)

(** C5: [setPlatformDetails] is a total function of the label alone: it
    yields the profile gcp-platform / Google Cloud for the label gcp and
    the profile local / local for every other label, the empty one
    included, whatever the receiver held before; built twice from the same
    label, the two profiles are equal. *)
Theorem setPlatformDetails_by_label (plat plat' : platformDetails)
    (env : string) :
  setPlatformDetails plat env
  = (if env =? "gcp" then gcpProfile else localProfile)
  /\ setPlatformDetails plat "gcp" = gcpProfile
  /\ setPlatformDetails plat "" = localProfile
  /\ setPlatformDetails plat env = setPlatformDetails plat' env.
Proof.
  unfold setPlatformDetails.
  repeat split; destruct (env =? "gcp"); reflexivity.
Qed.

(** ** Environment detection *)

(** C1: when every service resolves, a lookup of the metadata host that
    returns no error, with any number of addresses (none included), sets
    the label to gcp whatever [ENV_PLATFORM] gave in the first step, and
    the profile is the one of gcp; a lookup that returns an error leaves
    the label of the first step in place. *)
Theorem probe_decides_label uni sfs w root addrs err :
  allResolve root ->
  LookupHost w metadataHost = (addrs, err) ->
  exists t s,
    NewServer uni sfs w root = (t, (Some s, None))
    /\ loggedLabel t
       = [match err with
          | None => "gcp"
          | Some _ => step1Label (Getenv w "ENV_PLATFORM")
          end]
    /\ platform s
       = match err with
         | None => gcpProfile
         | Some _ =>
             setPlatformDetails platformDetails_zero
               (Strings.ToLower uni (step1Label (Getenv w "ENV_PLATFORM")))
         end.
Proof.
  intros Hall Hprobe.
  destruct (NewServer_resolved uni sfs w root Hall)
    as (t & s & Hrun & Hlabel & Hplat & _).
  exists t, s. unfold detectedLabel in Hlabel, Hplat.
  rewrite Hprobe in Hlabel, Hplat. simpl snd in Hlabel, Hplat.
  destruct err; auto.
Qed.

(** C3 (amended): for [ENV_PLATFORM] set to exactly the string gcp, with
    the metadata lookup failing and every service resolved, the label is
    gcp and the profile is gcp-platform / Google Cloud. *)
Theorem gcp_platform_variable uni sfs w root :
  allResolve root ->
  Getenv w "ENV_PLATFORM" = "gcp" ->
  snd (LookupHost w metadataHost) <> None ->
  exists t s,
    NewServer uni sfs w root = (t, (Some s, None))
    /\ loggedLabel t = ["gcp"]
    /\ platform s = gcpProfile.
Proof.
  intros Hall Hvar Hprobe.
  destruct (NewServer_resolved uni sfs w root Hall)
    as (t & s & Hrun & Hlabel & Hplat & _).
  exists t, s. unfold detectedLabel in Hlabel, Hplat. rewrite Hvar in *.
  destruct (snd (LookupHost w metadataHost)); [auto | contradiction].
Qed.

(** C4: for a value of [ENV_PLATFORM] that is empty or not one of local
    and gcp, with the metadata lookup failing and every service resolved,
    construction succeeds with the label local and the profile local /
    local, and between the read of the variable and the lookup it does
    nothing but print the notice; whatever the registry, the error
    returned is the one returned under any other surroundings. *)
Theorem invalid_platform_falls_back uni sfs w root v :
  allResolve root ->
  Getenv w "ENV_PLATFORM" = v ->
  v = "" \/ ~ In v validEnvs ->
  snd (LookupHost w metadataHost) <> None ->
  (exists t s rest,
      NewServer uni sfs w root = (t, (Some s, None))
      /\ loggedLabel t = ["local"]
      /\ platform s = localProfile
      /\ t = map EvGet resolutionOrder
             ++ EvGetenv "ENV_PLATFORM" :: noticeOnly
             ++ EvLookupHost metadataHost :: rest)
  /\ (forall w' root',
         errorOf (snd (NewServer uni sfs w root'))
         = errorOf (snd (NewServer uni sfs w' root'))).
Proof.
  intros Hall Hvar Hbad Hprobe. split.
  - assert (Hcond : (v =? "") || negb (stringinSlice validEnvs v) = true).
    { destruct Hbad as [-> | Hnot]; [reflexivity|].
      apply orb_true_iff. right. apply negb_true_iff.
      destruct (stringinSlice validEnvs v) eqn:Hin; [|reflexivity].
      apply stringinSlice_In in Hin. contradiction. }
    revert Hprobe. run_NewServer. rewrite !Hall. rewrite Hvar, Hcond.
    unfold metadataHost.
    destruct (LookupHost w "metadata.google.internal.") as [addrs [e|]];
      [intros _ | intros Hprobe; contradiction Hprobe; reflexivity].
    destruct (Hostname w) as [hn [e'|]]; cbn;
      do 3 eexists; repeat split; reflexivity.
  - intros w' root'. apply NewServer_error_by_registry.
Qed.

(** ** The host name *)

(** C9: when the lookup of the host name fails, the server that is
    returned has the host name unknown; with every service resolved a
    server is returned, and whatever the registry, the error returned is
    the one returned when the lookup succeeds. *)
Theorem hostname_failure_absorbed uni sfs w root e :
  snd (Hostname w) = Some e ->
  (allResolve root ->
   exists t s, NewServer uni sfs w root = (t, (Some s, None))
               /\ hostname s = "unknown")
  /\ (forall t s err,
         NewServer uni sfs w root = (t, (Some s, err)) ->
         hostname s = "unknown")
  /\ (forall w',
         errorOf (snd (NewServer uni sfs w root))
         = errorOf (snd (NewServer uni sfs w' root))).
Proof.
  intros Hhost.
  assert (Hok : allResolve root ->
                exists t s, NewServer uni sfs w root = (t, (Some s, None))
                            /\ hostname s = "unknown").
  { intros Hall.
    destruct (NewServer_resolved uni sfs w root Hall)
      as (t & s & Hrun & _ & _ & Hname & _).
    exists t, s. split; [exact Hrun|].
    rewrite Hname. unfold keptHostname. rewrite Hhost. reflexivity. }
  split; [exact Hok|]. split.
  - intros t s err Hrun.
    destruct (Hok (NewServer_server_inv _ _ _ _ _ _ _ Hrun))
      as (t' & s' & Hrun' & Hname).
    rewrite Hrun in Hrun'. injection Hrun' as _ -> _. exact Hname.
  - intros w'. apply NewServer_error_by_registry.
Qed.

(** ** Dependency wiring *)

(** C2: if one of the seven resolutions fails, [NewServer] returns an
    error and a nil server; a returned server comes with a nil error, every
    one of the seven resolved, and each field holds the handle that was
    resolved. *)
Theorem wiring_all_or_nothing uni sfs w root :
  (forall svc e,
      snd (Get root svc) = Some e ->
      exists t e', NewServer uni sfs w root = (t, (None, Some e')))
  /\ (forall t s err,
         NewServer uni sfs w root = (t, (Some s, err)) ->
         err = None
         /\ forall svc,
              snd (Get root svc) = None
              /\ serviceField s svc = fst (Get root svc)).
Proof.
  split.
  - intros svc e Hsvc.
    destruct (first_failure root resolutionOrder)
      as [Hall | (pre & svc' & post & e' & Hsplit & Hpre & Hfail)].
    + rewrite (Hall svc (resolutionOrder_complete svc)) in Hsvc.
      discriminate Hsvc.
    + exists (map EvGet (pre ++ [svc'])), e'.
      now apply NewServer_failure with (post := post).
  - intros t s err Hrun.
    pose proof (NewServer_server_inv _ _ _ _ _ _ _ Hrun) as Hall.
    destruct (NewServer_resolved uni sfs w root Hall)
      as (t' & s' & Hrun' & _ & _ & _ & Hfields).
    rewrite Hrun in Hrun'. injection Hrun' as _ -> ->.
    split; [reflexivity|]. intros svc. split; [apply Hall | apply Hfields].
Qed.

(** C10: the services are resolved in the order catalog, currency, cart,
    recommendation, checkout, shipping, ad; at the first one that fails,
    whatever the later ones would do, [NewServer] returns its error, having
    asked for the services up to it and for none after it. *)
Theorem resolution_short_circuits uni sfs w root pre svc post e :
  resolutionOrder = pre ++ svc :: post ->
  (forall s, In s pre -> snd (Get root s) = None) ->
  snd (Get root svc) = Some e ->
  NewServer uni sfs w root = (map EvGet pre ++ [EvGet svc], (None, Some e))
  /\ (forall s, In s post -> ~ In (EvGet s) (fst (NewServer uni sfs w root))).
Proof.
  unfold resolutionOrder. intros Hsplit Hpre Hsvc.
  repeat (destruct pre as [|? pre]; simpl in Hsplit;
          [ injection Hsplit as <- <-
          | injection Hsplit as <- Hsplit ]);
    try (destruct pre; discriminate Hsplit);
    run_NewServer;
    repeat (rewrite Hpre by (simpl; tauto); cbn [snd fst ret fail app]);
    rewrite Hsvc; (split; [reflexivity|]);
    intros s Hin Hev; simpl in Hin, Hev;
    repeat (destruct Hin as [<- | Hin]; [intuition discriminate|]);
    exact Hin.
Qed.

(** ** The handler chain and the route table *)

(** C6: the handler of the server is the router, wrapped by session
    assignment, wrapped by logging, wrapped by tracing: tracing is the
    outermost layer and the router the innermost. *)
Theorem handler_chain_order uni sfs w root t s err :
  NewServer uni sfs w root = (t, (Some s, err)) ->
  exists r h,
    handler s = Some h
    /\ h = otelhttp_NewHandler
             (newLogHandler root (ensureSessionID (RouterHandler r))) "http"
    /\ layers h = [BaseRouter; SessionAssignment; Logging; Tracing].
Proof.
  intros Hrun. invert_NewServer Hrun;
    cbn; do 2 eexists; repeat split; reflexivity.
Qed.

(** The labels the routes of a router are instrumented under. *)
Lemma NoDup_labels :
  NoDup ["home"; "product"; "cart_view"; "cart_add"; "cart_empty";
         "setcurrency"; "logout"; "cart_checkout"; "static"; "robots"].
Proof.
  repeat (constructor; [simpl; intuition discriminate|]). constructor.
Qed.

(** C7: the route table has, in registration order, the ten instrumented
    routes (each under its own label, no label twice) and last the route of
    /healthz, the only one on that path: its handler prints ok, is not
    wrapped by the instrumentation, and counts a request under no label;
    every route on another path is wrapped by the instrumentation. *)
Theorem route_table uni sfs w root t s err :
  NewServer uni sfs w root = (t, (Some s, err)) ->
  map routeSummary (serverRoutes s)
  = [("/", [MethodGet; MethodHead], Some "home");
     ("/product/{id}", [MethodGet; MethodHead], Some "product");
     ("/cart", [MethodGet; MethodHead], Some "cart_view");
     ("/cart", [MethodPost], Some "cart_add");
     ("/cart/empty", [MethodPost], Some "cart_empty");
     ("/setCurrency", [MethodPost], Some "setcurrency");
     ("/logout", [MethodGet], Some "logout");
     ("/cart/checkout", [MethodPost], Some "cart_checkout");
     ("/static/", [], Some "static");
     ("/robots.txt", [], Some "robots");
     ("/healthz", [], None)]
  /\ List.length
       (filter (fun route => matcherPath (route_matcher route) =? "/healthz")
          (serverRoutes s)) = 1
  /\ (forall route,
         In route (serverRoutes s) ->
         matcherPath (route_matcher route) = "/healthz" ->
         route_handler route = HandlerFunc (FprintFunc "ok")
         /\ instrumented (route_handler route) = false
         /\ forall serverMethod req,
              ServeHTTP serverMethod (route_handler route) req
              = ([], RespWrite "ok"))
  /\ (forall route,
         In route (serverRoutes s) ->
         matcherPath (route_matcher route) <> "/healthz" ->
         exists label inner,
           route_handler route = InstrumentHandler label inner)
  /\ NoDup (flat_map (fun route =>
                        match instrumentLabel (route_handler route) with
                        | Some label => [label]
                        | None => []
                        end) (serverRoutes s)).
Proof.
  intros Hrun.
  assert (Hroutes : exists staticHTML,
             serverRoutes s
             = [ Methods [MethodGet; MethodHead]
                   (handleInstrumented "/" "home" (MethodValue homeHandler));
                 Methods [MethodGet; MethodHead]
                   (handleInstrumented "/product/{id}" "product"
                      (MethodValue productHandler));
                 Methods [MethodGet; MethodHead]
                   (handleInstrumented "/cart" "cart_view"
                      (MethodValue viewCartHandler));
                 Methods [MethodPost]
                   (handleInstrumented "/cart" "cart_add"
                      (MethodValue addToCartHandler));
                 Methods [MethodPost]
                   (handleInstrumented "/cart/empty" "cart_empty"
                      (MethodValue emptyCartHandler));
                 Methods [MethodPost]
                   (handleInstrumented "/setCurrency" "setcurrency"
                      (MethodValue setCurrencyHandler));
                 Methods [MethodGet]
                   (handleInstrumented "/logout" "logout"
                      (MethodValue logoutHandler));
                 Methods [MethodPost]
                   (handleInstrumented "/cart/checkout" "cart_checkout"
                      (MethodValue placeOrderHandler));
                 PathPrefixHandler "/static/"
                   (InstrumentHandler "static"
                      (StripPrefix "/static/" (FileServer (ioFS staticHTML))));
                 handleInstrumented "/robots.txt" "robots"
                   (FprintFunc ("User-agent: *" ++ newline ++ "Disallow: /"));
                 HandleFunc "/healthz" (FprintFunc "ok") ]).
  { invert_NewServer Hrun; eexists; reflexivity. }
  destruct Hroutes as (staticHTML & ->).
  split; [reflexivity|]. split; [reflexivity|]. split; [|split].
  - intros route Hin Hpath. simpl in Hin.
    repeat (destruct Hin as [<- | Hin]; [try discriminate Hpath|]);
      [|contradiction].
    repeat split.
  - intros route Hin Hpath. simpl in Hin.
    repeat (destruct Hin as [<- | Hin];
            [first [ do 2 eexists; reflexivity
                   | contradiction Hpath; reflexivity ]|]).
    contradiction.
  - exact NoDup_labels.
Qed.

(** ** The static route *)

Module StaticRoute.
Import Strings.

Lemma splitSlash_cons (s : string) : exists e es, splitSlash s = e :: es.
Proof.
induction s as [|c s (e & es & IH)]; simpl.
- eauto.
- destruct (Ascii.eqb c "/"); [eauto|]. rewrite IH. eauto.
Qed.

Lemma joinSlash_cons (e : string) (es : list string) :
es <> [] -> joinSlash (e :: es) = (e ++ "/" ++ joinSlash es)%string.
Proof. destruct es; [contradiction | reflexivity]. Qed.

Lemma joinSlash_splitSlash (s : string) : joinSlash (splitSlash s) = s.
Proof.
induction s as [|c s IH]; [reflexivity|].
simpl splitSlash. destruct (Ascii.eqb_spec c "/") as [->|Hc].
- destruct (splitSlash_cons s) as (e & es & Hs).
  rewrite joinSlash_cons by (rewrite Hs; discriminate).
  rewrite IH. reflexivity.
- destruct (splitSlash_cons s) as (e & es & Hs). rewrite Hs in *.
  rewrite <- IH. destruct es; reflexivity.
Qed.

Lemma ValidPath_elems (name : string) :
fs.ValidPath name = true ->
name = "." \/ forallb fs.validElem (splitSlash name) = true.
Proof.
unfold fs.ValidPath. destruct (utf8.ValidString name); [|discriminate].
simpl. destruct (String.eqb_spec name "."); auto.
Qed.

Lemma cleanStep_valid (rooted : bool) (out : list string) (elem : string) :
fs.validElem elem = true -> path.cleanStep rooted out elem = elem :: out.
Proof.
unfold fs.validElem, path.cleanStep. intros H.
apply negb_true_iff in H. apply orb_false_iff in H as [H Hdd].
rewrite H, Hdd. reflexivity.
Qed.

Lemma fold_cleanStep_valid (rooted : bool) (es out : list string) :
forallb fs.validElem es = true ->
fold_left (path.cleanStep rooted) es out = rev es ++ out.
Proof.
revert out. induction es as [|e es IH]; intros out H; [reflexivity|].
simpl in H. apply andb_true_iff in H as [He Hes].
simpl. rewrite cleanStep_valid by exact He. rewrite IH by exact Hes.
rewrite <- app_assoc. reflexivity.
Qed.

Lemma Clean_rooted_valid (n : string) :
forallb fs.validElem (splitSlash n) = true ->
path.Clean ("/" ++ n) = ("/" ++ n)%string.
Proof.
intros H. unfold path.Clean.
change (("/" ++ n)%string =? "") with false.
change (HasPrefix ("/" ++ n) "/") with true.
change (splitSlash ("/" ++ n)) with ("" :: splitSlash n).
cbn [fold_left]. change (path.cleanStep true [] "") with (@nil string).
rewrite fold_cleanStep_valid by exact H.
rewrite app_nil_r, rev_involutive, joinSlash_splitSlash. reflexivity.
Qed.

Lemma valid_head (n : string) :
forallb fs.validElem (splitSlash n) = true ->
exists c n', n = String c n' /\ Ascii.eqb c "/" = false.
Proof.
destruct n as [|c n']; [intros H; cbv in H; discriminate H|].
simpl splitSlash. destruct (Ascii.eqb c "/") eqn:Hc; intros H.
- cbn in H. discriminate H.
- eauto.
Qed.

Lemma endsInSlash_split (s : string) :
http.endsInSlash s = true -> exists e es, splitSlash s = e :: es ++ [""].
Proof.
unfold http.endsInSlash.
induction s as [|c s IH]; simpl; [discriminate|].
destruct s as [|c' s'].
- intros ->. exists "", []. reflexivity.
- intros H. destruct (IH H) as (e & es & Hs). rewrite Hs.
  destruct (Ascii.eqb c "/").
  + exists "", (e :: es). reflexivity.
  + exists (String c e), es. reflexivity.
Qed.

Lemma valid_not_endsInSlash (n : string) :
forallb fs.validElem (splitSlash n) = true ->
http.endsInSlash ("/" ++ n) = false.
Proof.
intros H. destruct (valid_head n H) as (c & n' & -> & Hc).
destruct (http.endsInSlash ("/" ++ String c n')) eqn:E; [|reflexivity].
change (http.endsInSlash (String c n') = true) in E.
destruct (endsInSlash_split _ E) as (e & es & Hs).
rewrite Hs in H. simpl in H. rewrite forallb_app in H. simpl in H.
rewrite !andb_false_r in H. discriminate.
Qed.


Lemma static_handler_serves sm (fsys : fs.FS) (dir n data : string) :
fs.Open (fs.subFS fsys dir) n = inr (fs.File data) ->
HasSuffix ("/" ++ n) http.indexPage = false ->
ServeHTTP sm
  (InstrumentHandler "static"
     (StripPrefix "/static/" (FileServer (ioFS (fs.subFS fsys dir)))))
  (mkRequest MethodGet ("/static/" ++ n))
= (["static"], RespContent data).
Proof.
intros Hopen Hidx.
assert (Hvalid : fs.ValidPath n = true).
{ pose proof Hopen as Hsub. simpl in Hsub.
  destruct (fs.ValidPath n); [reflexivity | discriminate Hsub]. }
cbn [ServeHTTP]. unfold instrument, http.stripPrefix.
change ("/static/" =? "") with false. cbn [URLPath Method].
change (TrimPrefix ("/static/" ++ n) "/static/") with n.
replace (Nat.ltb (String.length n) (String.length ("/static/" ++ n)))
  with true by (symmetry; apply Nat.ltb_lt; simpl; lia).
unfold http.fileServer, http.serveFile. cbn [URLPath Method].
destruct (ValidPath_elems n Hvalid) as [-> | Helems].
- change (HasPrefix "." "/") with false. cbv iota.
  assert (Hclean : path.Clean ("/" ++ ".") = "/") by reflexivity.
  rewrite Hidx, Hclean. unfold http.Open.
  change ("/" =? "/") with true. cbv iota.
  rewrite Hopen. reflexivity.
- destruct (valid_head n Helems) as (c & n' & Hn & Hc).
  assert (Hhead : HasPrefix n "/" = false).
  { rewrite Hn. unfold HasPrefix. cbn [cutPrefix].
    rewrite Ascii.eqb_sym, Hc. reflexivity. }
  rewrite Hhead. rewrite Hidx, Clean_rooted_valid by exact Helems.
  unfold http.Open.
  assert (Hroot : (("/" ++ n)%string =? "/") = false)
    by (rewrite Hn; reflexivity).
  rewrite Hroot. change (TrimPrefix ("/" ++ n) "/") with n.
  rewrite Hopen. cbn [fs.isDir andb negb].
  rewrite valid_not_endsInSlash by exact Helems. reflexivity.
Qed.


Lemma splitSlash_app (a b : string) :
splitSlash (a ++ "/" ++ b) = (splitSlash a ++ splitSlash b)%list.
Proof.
change ("/" ++ b)%string with (String "/" b).
induction a as [|x a IH]; [reflexivity|].
cbn [append splitSlash]. rewrite IH.
destruct (Ascii.eqb x "/"); [reflexivity|].
destruct (splitSlash_cons a) as (e & es & ->). reflexivity.
Qed.

Lemma Join_valid (dir n : string) :
forallb fs.validElem (splitSlash dir) = true ->
forallb fs.validElem (splitSlash n) = true ->
path.Join dir n = (dir ++ "/" ++ n)%string.
Proof.
intros Hdir Hn.
destruct (valid_head dir Hdir) as (c & dir' & Hd & Hc).
assert (Hhead : HasPrefix (dir ++ "/" ++ n) "/" = false).
{ rewrite Hd. unfold HasPrefix. cbn [cutPrefix append].
  rewrite Ascii.eqb_sym, Hc. reflexivity. }
assert (Hne : (dir =? "") = false) by (rewrite Hd; reflexivity).
assert (Hne' : ((dir ++ "/" ++ n)%string =? "") = false)
  by (rewrite Hd; reflexivity).
unfold path.Join, path.Clean. rewrite Hne, Hne', Hhead. cbn [andb].
rewrite splitSlash_app, fold_cleanStep_valid
  by (rewrite forallb_app, Hdir, Hn; reflexivity).
rewrite app_nil_r, rev_involutive, <- splitSlash_app.
destruct (splitSlash_cons (dir ++ "/" ++ n)) as (e & es & Hs).
rewrite Hs. cbv iota. rewrite <- Hs. apply joinSlash_splitSlash.
Qed.

(** Under a directory with a valid name, a valid name other than [.]
  opens what the full name opens in the file system underneath. *)
Lemma subFS_Open_valid (fsys : fs.FS) (dir n : string) :
forallb fs.validElem (splitSlash dir) = true ->
fs.ValidPath n = true ->
n <> "." ->
fs.Open (fs.subFS fsys dir) n = fs.Open fsys (dir ++ "/" ++ n).
Proof.
intros Hdir Hvalid Hdot. cbn [fs.Open]. rewrite Hvalid. cbn [negb].
destruct (ValidPath_elems n Hvalid) as [-> | Helems]; [contradiction|].
rewrite Join_valid by assumption. reflexivity.
Qed.

(** C8 (amended): the route table has one route on a path prefix: the
  prefix is /static/ and the handler is instrumented under the label
  static.  Its file server looks names up in the embedded files under
  static/, and for every name n that opens to a file there and whose
  path does not end in /index.html, a GET request for /static/ followed
  by n is answered with the bytes of that file, counted once under
  static. *)
Theorem static_route_serves_assets uni sfs w root t s err :
NewServer uni sfs w root = (t, (Some s, err)) ->
exists route staticHTML,
  filter (fun r => match route_matcher r with
                   | PathPrefix _ => true
                   | Path _ => false
                   end) (serverRoutes s) = [route]
  /\ route_matcher route = PathPrefix "/static/"
  /\ instrumentLabel (route_handler route) = Some "static"
  /\ fs.Sub (fs.Embed sfs) "static" = inr staticHTML
  /\ (forall n,
         fs.ValidPath n = true -> n <> "." ->
         fs.Open staticHTML n = fs.Open (fs.Embed sfs) ("static/" ++ n))
  /\ (forall serverMethod n data,
         fs.Open staticHTML n = inr (fs.File data) ->
         HasSuffix ("/" ++ n) http.indexPage = false ->
         ServeHTTP serverMethod (route_handler route)
           (mkRequest MethodGet ("/static/" ++ n))
         = (["static"], RespContent data)).
Proof.
intros Hrun.
assert (Hroute : filter (fun r => match route_matcher r with
                                  | PathPrefix _ => true
                                  | Path _ => false
                                  end) (serverRoutes s)
                 = [PathPrefixHandler "/static/"
                      (InstrumentHandler "static"
                         (StripPrefix "/static/"
                            (FileServer
                               (ioFS (fs.subFS (fs.Embed sfs) "static")))))])
  by (invert_NewServer Hrun; reflexivity).
eexists; exists (fs.subFS (fs.Embed sfs) "static").
split; [exact Hroute|]. repeat split.
- intros n Hvalid Hdot.
  apply (subFS_Open_valid (fs.Embed sfs) "static" n); auto.
- intros serverMethod n data Hopen Hidx.
  apply static_handler_serves; assumption.
Qed.

End StaticRoute.

(** ** The theorems at sample surroundings *)

Lemma probe_decides_label_witness :
  exists t s,
    NewServer sampleUni sampleAssets
      (worldOf "local" ([], None) ("frontend-0", None)) registryOK
    = (t, (Some s, None))
    /\ loggedLabel t = ["gcp"]
    /\ platform s = gcpProfile.
Proof.
  exact (probe_decides_label sampleUni sampleAssets
           (worldOf "local" ([], None) ("frontend-0", None)) registryOK
           [] None (fun _ => eq_refl) eq_refl).
Defined.

Lemma gcp_platform_variable_witness :
  exists t s,
    NewServer sampleUni sampleAssets
      (worldOf "gcp" ([], noSuchHost) ("frontend-0", None)) registryOK
    = (t, (Some s, None))
    /\ loggedLabel t = ["gcp"]
    /\ platform s = gcpProfile.
Proof.
  apply gcp_platform_variable.
  - intros svc. reflexivity.
  - reflexivity.
  - discriminate.
Defined.

(** With [ENV_PLATFORM=GCP], a casing of gcp, and the lookup failing, the
    label is local and the profile is local / local. *)
Lemma gcp_uppercase_counterexample :
  let run := NewServer sampleUni sampleAssets
               (worldOf "GCP" ([], noSuchHost) ("frontend-0", None))
               registryOK in
  Strings.ToLower sampleUni "GCP" = "gcp"
  /\ loggedLabel (fst run) = ["local"]
  /\ loggedLabel (fst run) <> ["gcp"]
  /\ option_map platform (serverOf (snd run)) = Some localProfile
  /\ option_map platform (serverOf (snd run)) <> Some gcpProfile.
Proof.
  cbv zeta. repeat split; try reflexivity; vm_compute; discriminate.
Qed.

Lemma invalid_platform_falls_back_witness :
  exists t s rest,
    NewServer sampleUni sampleAssets
      (worldOf "aws" ([], noSuchHost) ("frontend-0", None)) registryOK
    = (t, (Some s, None))
    /\ loggedLabel t = ["local"]
    /\ platform s = localProfile
    /\ t = map EvGet resolutionOrder
           ++ EvGetenv "ENV_PLATFORM" :: noticeOnly
           ++ EvLookupHost metadataHost :: rest.
Proof.
  apply (invalid_platform_falls_back sampleUni sampleAssets
           (worldOf "aws" ([], noSuchHost) ("frontend-0", None))
           registryOK "aws").
  - intros svc. reflexivity.
  - reflexivity.
  - right. simpl. intros [H | [H | []]]; discriminate H.
  - discriminate.
Defined.

Lemma hostname_failure_absorbed_witness :
  exists t s,
    NewServer sampleUni sampleAssets
      (worldOf "local" ([], noSuchHost) ("", Some (mkError "no hostname")))
      registryOK
    = (t, (Some s, None))
    /\ hostname s = "unknown".
Proof.
  apply (hostname_failure_absorbed sampleUni sampleAssets
           (worldOf "local" ([], noSuchHost)
              ("", Some (mkError "no hostname")))
           registryOK (mkError "no hostname")).
  - reflexivity.
  - intros svc. reflexivity.
Defined.

Lemma wiring_all_or_nothing_witness :
  exists t e,
    NewServer sampleUni sampleAssets sampleWorld (registryWithout [Checkout])
    = (t, (None, Some e)).
Proof.
  apply (proj1 (wiring_all_or_nothing sampleUni sampleAssets sampleWorld
                  (registryWithout [Checkout]))
           Checkout (notFound Checkout)).
  reflexivity.
Defined.

Lemma resolution_short_circuits_witness :
  NewServer sampleUni sampleAssets sampleWorld
    (registryWithout [Cart; Shipping])
  = ([EvGet Catalog; EvGet Currency; EvGet Cart],
     (None, Some (notFound Cart)))
  /\ (forall s,
         In s [Recommendation; Checkout; Shipping; Ad] ->
         ~ In (EvGet s)
             (fst (NewServer sampleUni sampleAssets sampleWorld
                     (registryWithout [Cart; Shipping])))).
Proof.
  apply (resolution_short_circuits sampleUni sampleAssets sampleWorld
           (registryWithout [Cart; Shipping])
           [Catalog; Currency] Cart
           [Recommendation; Checkout; Shipping; Ad] (notFound Cart)).
  - reflexivity.
  - intros s [<- | [<- | []]]; reflexivity.
  - reflexivity.
Defined.

Lemma handler_chain_order_witness :
  exists s,
    serverOf (snd sampleRun) = Some s
    /\ exists r h,
         handler s = Some h
         /\ h = otelhttp_NewHandler
                  (newLogHandler registryOK
                     (ensureSessionID (RouterHandler r))) "http"
         /\ layers h = [BaseRouter; SessionAssignment; Logging; Tracing].
Proof.
  eexists. split; [reflexivity|].
  apply (handler_chain_order sampleUni sampleAssets sampleWorld registryOK
           (fst sampleRun) _ None).
  reflexivity.
Defined.

Lemma route_table_witness :
  exists s,
    serverOf (snd sampleRun) = Some s
    /\ List.length (serverRoutes s) = 11
    /\ List.length
         (filter (fun route =>
                    matcherPath (route_matcher route) =? "/healthz")
            (serverRoutes s)) = 1.
Proof.
  eexists. split; [reflexivity|].
  destruct (route_table sampleUni sampleAssets sampleWorld registryOK
              (fst sampleRun) _ None eq_refl) as (Htable & Hone & _).
  split; [|exact Hone].
  rewrite <- (length_map routeSummary), Htable. reflexivity.
Defined.

Lemma static_route_serves_assets_witness :
  exists s route,
    serverOf (snd sampleRun) = Some s
    /\ In route (serverRoutes s)
    /\ ServeHTTP sampleMethods (route_handler route)
         (mkRequest MethodGet "/static/a.txt")
       = (["static"], RespContent "hello")
    /\ ServeHTTP sampleMethods (route_handler route)
         (mkRequest MethodGet "/static/styles/styles.css")
       = (["static"], RespContent "body {}").
Proof.
  eexists.
  destruct (StaticRoute.static_route_serves_assets
              sampleUni sampleAssets sampleWorld registryOK
              (fst sampleRun) _ None eq_refl)
    as (route & staticHTML & Hroute & _ & _ & Hsub & _ & Hserve).
  exists route. split; [reflexivity|].
  injection Hsub as <-.
  split; [|split].
  - assert (Hin : In route [route]) by (left; reflexivity).
    rewrite <- Hroute in Hin. apply filter_In in Hin. exact (proj1 Hin).
  - apply (Hserve sampleMethods "a.txt" "hello"); reflexivity.
  - apply (Hserve sampleMethods "styles/styles.css" "body {}"); reflexivity.
Defined.

(** A GET request for /static/index.html is answered with a redirect to
    [./], not with the bytes of the embedded file. *)
Lemma static_index_counterexample :
  exists s route,
    serverOf (snd sampleRun) = Some s
    /\ In route (serverRoutes s)
    /\ route_matcher route = PathPrefix "/static/"
    /\ fs.Open (fs.subFS (fs.Embed sampleAssets) "static") "index.html"
       = inr (fs.File "<html></html>")
    /\ ServeHTTP sampleMethods (route_handler route)
         (mkRequest MethodGet "/static/index.html")
       = (["static"], RespRedirect "./")
    /\ ServeHTTP sampleMethods (route_handler route)
         (mkRequest MethodGet "/static/index.html")
       <> (["static"], RespContent "<html></html>").
Proof.
  eexists. eexists. split; [reflexivity|].
  split; [do 8 right; left; reflexivity|].
  repeat split; try reflexivity. vm_compute. discriminate.
Qed.

(** * Further properties of [NewServer] and [Run] *)

(** ** What construction can fail with *)

(** An error returned by [NewServer] is the error of a service that did
    not resolve: mounting the static subtree never fails, whatever files
    are embedded. *)
Theorem NewServer_error_from_registry uni sfs w root t res e :
  NewServer uni sfs w root = (t, res) ->
  errorOf res = Some e ->
  serverOf res = None
  /\ exists svc, snd (Get root svc) = Some e
                 /\ In svc resolutionOrder
                 /\ forall ev, In ev t -> exists svc', ev = EvGet svc'.
Proof.
  intros Hrun Herr.
  destruct (first_failure root resolutionOrder)
    as [Hall | (pre & svc & post & e' & Hsplit & Hpre & Hsvc)].
  - assert (Hres : allResolve root)
      by (intro svc; apply Hall, resolutionOrder_complete).
    destruct (NewServer_resolved uni sfs w root Hres) as (t' & s' & Hok & _).
    rewrite Hok in Hrun. injection Hrun as _ <-. discriminate Herr.
  - rewrite (NewServer_failure uni sfs w root pre svc post e' Hsplit Hpre Hsvc)
      in Hrun.
    injection Hrun as <- <-. injection Herr as <-.
    split; [reflexivity|]. exists svc. split; [exact Hsvc|]. split.
    + rewrite Hsplit. apply in_or_app. right. left. reflexivity.
    + intros ev Hin. apply in_map_iff in Hin as (svc' & <- & _). eauto.
Qed.

(** ** The calls of a successful construction *)

(** A construction that returns a server has asked, in this order and
    once each, for the seven services, for [ENV_PLATFORM], for the
    addresses of the metadata host and for the host name, and has made no
    other call. *)
Theorem NewServer_calls uni sfs w root t s err :
  NewServer uni sfs w root = (t, (Some s, err)) ->
  filter isCall t
  = map EvGet resolutionOrder
    ++ [EvGetenv "ENV_PLATFORM"; EvLookupHost metadataHost; EvHostname].
Proof.
  intros Hrun. invert_NewServer Hrun; reflexivity.
Qed.

(** ** The profile *)

Lemma valid_platform_value (v : string) :
  (v =? "") || negb (stringinSlice validEnvs v) = false ->
  v = "local" \/ v = "gcp".
Proof.
  intros H. apply orb_false_iff in H as [_ H].
  apply negb_false_iff, stringinSlice_In in H.
  simpl in H. intuition auto.
Qed.

Lemma step1Label_cases (v : string) :
  (v = "gcp" /\ step1Label v = "gcp") \/ (v <> "gcp" /\ step1Label v = "local").
Proof.
  unfold step1Label.
  destruct ((v =? "") || negb (stringinSlice validEnvs v)) eqn:Hcond.
  - destruct (String.eqb_spec v "gcp") as [-> | Hne]; [discriminate Hcond|].
    right. auto.
  - destruct (valid_platform_value v Hcond) as [-> | ->].
    + right. split; [discriminate | reflexivity].
    + left. auto.
Qed.

(** The server gets the gcp profile exactly when the metadata lookup
    returned no error or [ENV_PLATFORM] is the string gcp; in every other
    case it gets the local profile. *)
Theorem gcp_profile_iff uni sfs w root t s err :
  NewServer uni sfs w root = (t, (Some s, err)) ->
  (platform s = gcpProfile
   <-> snd (LookupHost w metadataHost) = None
       \/ Getenv w "ENV_PLATFORM" = "gcp")
  /\ (platform s = gcpProfile \/ platform s = localProfile).
Proof.
  intros Hrun.
  pose proof (NewServer_server_inv _ _ _ _ _ _ _ Hrun) as Hall.
  destruct (NewServer_resolved uni sfs w root Hall)
    as (t' & s' & Hok & _ & Hplat & _).
  rewrite Hrun in Hok. injection Hok as _ <- _.
  unfold detectedLabel in Hplat.
  destruct (snd (LookupHost w metadataHost)) as [e|].
  - destruct (step1Label_cases (Getenv w "ENV_PLATFORM"))
      as [[Hv Hl] | [Hv Hl]]; rewrite Hl in Hplat; rewrite Hplat.
    + split; [|left; reflexivity]. split; auto.
    + split; [|right; reflexivity]. split.
      * discriminate.
      * intros [H | H]; [discriminate H | contradiction].
  - rewrite Hplat. split; [|left; reflexivity]. split; auto.
Qed.


(** ** What is printed and logged *)

Lemma invalid_platform_value (v : string) :
  (v =? "") || negb (stringinSlice validEnvs v) = true
  <-> v = "" \/ ~ In v validEnvs.
Proof.
  rewrite orb_true_iff, negb_true_iff, String.eqb_eq.
  rewrite <- (stringinSlice_In validEnvs v).
  destruct (stringinSlice validEnvs v); intuition congruence.
Qed.

(** A construction that returns a server has printed the notice about
    the platform, and nothing else, exactly when [ENV_PLATFORM] is empty
    or is neither local nor gcp; otherwise it has printed nothing. *)
Theorem platform_notice_iff uni sfs w root t s err :
  NewServer uni sfs w root = (t, (Some s, err)) ->
  filter isPrintln t
  = (if (Getenv w "ENV_PLATFORM" =? "")
        || negb (stringinSlice validEnvs (Getenv w "ENV_PLATFORM"))
     then [EvPrintln platformNotice] else [])
  /\ (In (EvPrintln platformNotice) t
      <-> Getenv w "ENV_PLATFORM" = ""
          \/ ~ In (Getenv w "ENV_PLATFORM") validEnvs).
Proof.
  intros Hrun.
  assert (Hprinted :
            filter isPrintln t
            = (if (Getenv w "ENV_PLATFORM" =? "")
                  || negb (stringinSlice validEnvs (Getenv w "ENV_PLATFORM"))
               then [EvPrintln platformNotice] else [])).
  { pose proof (NewServer_server_inv _ _ _ _ _ _ _ Hrun) as Hall.
    revert Hrun. run_NewServer. rewrite !Hall.
    destruct ((Getenv w "ENV_PLATFORM" =? "")
              || negb (stringinSlice validEnvs (Getenv w "ENV_PLATFORM")));
      destruct (LookupHost w "metadata.google.internal.") as [addrs [e|]];
      destruct (Hostname w) as [hn [e'|]];
      rewrite ?len_geb_0; cbn -[Strings.ToLower setPlatformDetails];
      intros Hrun; injection Hrun as <- _ _; reflexivity. }
  split; [exact Hprinted|].
  rewrite <- invalid_platform_value.
  assert (Hin : In (EvPrintln platformNotice) t
                <-> In (EvPrintln platformNotice) (filter isPrintln t)).
  { rewrite filter_In. simpl. tauto. }
  rewrite Hin, Hprinted.
  destruct ((Getenv w "ENV_PLATFORM" =? "")
            || negb (stringinSlice validEnvs (Getenv w "ENV_PLATFORM")));
    simpl; intuition discriminate.
Qed.

(** The debug log of a construction that returns a server: the detection
    of the metadata server with the addresses found, when the lookup
    returned no error; then the label; then the message about the host
    name, when its lookup failed. *)
Theorem NewServer_debug_log uni sfs w root t s err :
  NewServer uni sfs w root = (t, (Some s, err)) ->
  filter isDebug t
  = (match snd (LookupHost w metadataHost) with
     | None => [EvDebug detectedMessage
                  [("address", LogStrings (fst (LookupHost w metadataHost)))]]
     | Some _ => []
     end)
    ++ [EvDebug "ENV_PLATFORM" [("platform", LogString (detectedLabel w))]]
    ++ (match snd (Hostname w) with
        | None => []
        | Some _ => [EvDebug hostnameMessage []]
        end).
Proof.
  intros Hrun.
  pose proof (NewServer_server_inv _ _ _ _ _ _ _ Hrun) as Hall.
  revert Hrun. run_NewServer. rewrite !Hall.
  unfold detectedLabel, step1Label, metadataHost.
  destruct ((Getenv w "ENV_PLATFORM" =? "")
            || negb (stringinSlice validEnvs (Getenv w "ENV_PLATFORM")));
    destruct (LookupHost w "metadata.google.internal.") as [addrs [e|]];
    destruct (Hostname w) as [hn [e'|]];
    rewrite ?len_geb_0; cbn -[Strings.ToLower setPlatformDetails];
    intros Hrun; injection Hrun as <- _ _; reflexivity.
Qed.

(** The host name of the server is the one looked up when the lookup
    succeeded: a server whose host name is not unknown was built with a
    successful lookup. *)
Theorem hostname_kept uni sfs w root t s err :
  NewServer uni sfs w root = (t, (Some s, err)) ->
  (snd (Hostname w) = None -> hostname s = fst (Hostname w))
  /\ (hostname s <> "unknown" -> snd (Hostname w) = None).
Proof.
  intros Hrun.
  pose proof (NewServer_server_inv _ _ _ _ _ _ _ Hrun) as Hall.
  destruct (NewServer_resolved uni sfs w root Hall)
    as (t' & s' & Hok & _ & _ & Hname & _).
  rewrite Hrun in Hok. injection Hok as _ <- _.
  rewrite Hname. unfold keptHostname.
  destruct (snd (Hostname w)); split; try reflexivity; try discriminate.
  intros H. contradiction H. reflexivity.
Qed.

(** ** [Run] *)

(** [Run] on a server built by [NewServer] asks the instance of the server
    for the listener boutique at the given address.  When the listener is
    refused, it returns that error and serves nothing; when it is given,
    it serves on it the chain of tracing over logging over session
    assignment over the router, and returns the error serving ended
    with.  It never returns a nil error. *)
Theorem Run_after_NewServer uni sfs w inst t s err net localAddr :
  NewServer uni sfs w inst = (t, (Some s, err)) ->
  let asked := EvListener "boutique" (mkListenerOptions localAddr) in
  let given := Listener net inst "boutique" (mkListenerOptions localAddr) in
  (forall e, snd given = Some e -> Run net s localAddr = ([asked], Some e))
  /\ (snd given = None ->
      exists r,
        List.length r = 11
        /\ let h := Some (otelhttp_NewHandler
                            (newLogHandler inst
                               (ensureSessionID (RouterHandler r))) "http") in
           Run net s localAddr
           = ([asked; EvAvailable "Frontend available" (fst given);
               EvServe (fst given) h],
              Some (Serve net (fst given) h)))
  /\ snd (Run net s localAddr) <> None.
Proof.
  intros Hrun asked given. subst asked given.
  invert_NewServer Hrun; unfold Run; cbn [root handler set_handler];
    destruct (Listener net inst "boutique" (mkListenerOptions localAddr))
      as [lis [refused|]]; cbn [fst snd];
    (split; [intros ? He; congruence|]);
    (split; [|discriminate]);
    intros Hgiven; try discriminate Hgiven;
    eexists; (split; [|reflexivity]); reflexivity.
Qed.

(** * Further properties of the static route *)

Module StaticAssets.
Import Strings.

(** The handler of the route that [NewServer] registers on the prefix
    /static/. *)
Lemma static_route_inv uni sfs w inst t s err route :
  NewServer uni sfs w inst = (t, (Some s, err)) ->
  In route (serverRoutes s) ->
  route_matcher route = PathPrefix "/static/" ->
  route_handler route = staticHandler (fs.subFS (fs.Embed sfs) "static").
Proof.
  intros Hrun Hin Hmatch.
  assert (Hroutes : exists r9 r10 r11,
             serverRoutes s
             = [ Methods [MethodGet; MethodHead]
                   (handleInstrumented "/" "home" (MethodValue homeHandler));
                 Methods [MethodGet; MethodHead]
                   (handleInstrumented "/product/{id}" "product"
                      (MethodValue productHandler));
                 Methods [MethodGet; MethodHead]
                   (handleInstrumented "/cart" "cart_view"
                      (MethodValue viewCartHandler));
                 Methods [MethodPost]
                   (handleInstrumented "/cart" "cart_add"
                      (MethodValue addToCartHandler));
                 Methods [MethodPost]
                   (handleInstrumented "/cart/empty" "cart_empty"
                      (MethodValue emptyCartHandler));
                 Methods [MethodPost]
                   (handleInstrumented "/setCurrency" "setcurrency"
                      (MethodValue setCurrencyHandler));
                 Methods [MethodGet]
                   (handleInstrumented "/logout" "logout"
                      (MethodValue logoutHandler));
                 Methods [MethodPost]
                   (handleInstrumented "/cart/checkout" "cart_checkout"
                      (MethodValue placeOrderHandler));
                 r9; r10; r11 ]
             /\ r9 = PathPrefixHandler "/static/"
                       (staticHandler (fs.subFS (fs.Embed sfs) "static"))
             /\ route_matcher r10 = Path "/robots.txt"
             /\ route_matcher r11 = Path "/healthz").
  { invert_NewServer Hrun; do 3 eexists; repeat split. }
  destruct Hroutes as (r9 & r10 & r11 & Hroutes & -> & H10 & H11).
  rewrite Hroutes in Hin. simpl in Hin.
  repeat (destruct Hin as [<- | Hin]; [try discriminate Hmatch|]);
    try contradiction; try congruence.
  reflexivity.
Qed.

(** What the static handler answers for a valid name of the file system
    it serves. *)
Lemma static_handler_valid_name sm (fsys : fs.FS) (dir meth n : string) :
  fs.ValidPath n = true ->
  HasSuffix ("/" ++ n) http.indexPage = false ->
  ServeHTTP sm (staticHandler (fs.subFS fsys dir))
    (mkRequest meth ("/static/" ++ n))
  = (["static"],
     match fs.Open (fs.subFS fsys dir) n with
     | inl e => RespError e
     | inr (fs.File data) =>
         RespContent (if meth =? MethodHead then "" else data)
     | inr fs.Dir => RespRedirect (path.Base ("/" ++ n) ++ "/")
     end).
Proof.
  intros Hvalid Hidx.
  unfold staticHandler. cbn [ServeHTTP]. unfold instrument, http.stripPrefix.
  change ("/static/" =? "") with false. cbn [URLPath Method].
  change (TrimPrefix ("/static/" ++ n) "/static/") with n.
  replace (Nat.ltb (String.length n) (String.length ("/static/" ++ n)))
    with true by (symmetry; apply Nat.ltb_lt; simpl; lia).
  unfold http.fileServer, http.serveFile, http.serveContent.
  cbn [URLPath Method].
  destruct (StaticRoute.ValidPath_elems n Hvalid) as [-> | Helems].
  - change (HasPrefix "." "/") with false. cbv iota.
    assert (Hclean : path.Clean ("/" ++ ".") = "/") by reflexivity.
    rewrite Hidx, Hclean. unfold http.Open.
    change ("/" =? "/") with true. cbv iota.
    destruct (fs.Open (fs.subFS fsys dir) ".") as [e | [data|]]; reflexivity.
  - destruct (StaticRoute.valid_head n Helems) as (c & n' & Hn & Hc).
    assert (Hhead : HasPrefix n "/" = false).
    { rewrite Hn. unfold HasPrefix. cbn [cutPrefix].
      rewrite Ascii.eqb_sym, Hc. reflexivity. }
    rewrite Hhead. rewrite Hidx, StaticRoute.Clean_rooted_valid by exact Helems.
    unfold http.Open.
    assert (Hroot : (("/" ++ n)%string =? "/") = false)
      by (rewrite Hn; reflexivity).
    rewrite Hroot. change (TrimPrefix ("/" ++ n) "/") with n.
    rewrite StaticRoute.valid_not_endsInSlash by exact Helems.
    destruct (fs.Open (fs.subFS fsys dir) n) as [e | [data|]]; reflexivity.
Qed.

(** An embedded file is found under its name. *)
Lemma lookup_file (files : fs.embed_FS) (name data : string) :
  fs.lookup files name = Some (fs.File data) ->
  fs.find files name = Some (fs.File data) /\ fs.ValidPath name = true.
Proof.
  unfold fs.lookup. destruct (fs.ValidPath name); [|discriminate].
  cbn [negb]. destruct (name =? "."); [discriminate | auto].
Qed.

(** For a name that opens in the served file system, the name is valid. *)
Lemma subFS_Open_inv (fsys : fs.FS) (dir n : string) (node : fs.Node) :
  fs.Open (fs.subFS fsys dir) n = inr node ->
  fs.ValidPath n = true /\ fs.Open fsys (path.Join dir n) = inr node.
Proof.
  cbn [fs.Open]. destruct (fs.ValidPath n); [auto | discriminate].
Qed.




(** A request for a valid name that is not embedded under static/ is
    answered with the error for a file that does not exist (a 404),
    counted under static. *)
Theorem missing_asset_not_found uni sfs w inst t s err route sm meth n :
  NewServer uni sfs w inst = (t, (Some s, err)) ->
  In route (serverRoutes s) ->
  route_matcher route = PathPrefix "/static/" ->
  fs.ValidPath n = true ->
  n <> "." ->
  HasSuffix ("/" ++ n) http.indexPage = false ->
  fs.find sfs ("static/" ++ n) = None ->
  ServeHTTP sm (route_handler route) (mkRequest meth ("/static/" ++ n))
  = (["static"], RespError fs.ErrNotExist).
Proof.
  intros Hrun Hin Hmatch Hvalid Hdot Hidx Hfind.
  rewrite (static_route_inv _ _ _ _ _ _ _ _ Hrun Hin Hmatch).
  rewrite static_handler_valid_name by assumption.
  rewrite StaticRoute.subFS_Open_valid by (assumption || reflexivity).
  cbn [fs.Open]. unfold fs.lookup.
  change ("static" ++ "/" ++ n)%string with ("static/" ++ n)%string.
  destruct (fs.ValidPath ("static/" ++ n)); [|reflexivity].
  cbn [negb]. change (("static/" ++ n)%string =? ".") with false.
  cbv iota. rewrite Hfind. reflexivity.
Qed.

(** The static route is not restricted to a method: for a name that opens
    to a file and whose path does not end in /index.html, a request with
    any method is answered with the file, and a HEAD request with an
    empty body. *)
Theorem static_asset_any_method uni sfs w inst t s err route sm meth n data :
  NewServer uni sfs w inst = (t, (Some s, err)) ->
  In route (serverRoutes s) ->
  route_matcher route = PathPrefix "/static/" ->
  fs.Open (fs.subFS (fs.Embed sfs) "static") n = inr (fs.File data) ->
  HasSuffix ("/" ++ n) http.indexPage = false ->
  route_methods route = []
  /\ ServeHTTP sm (route_handler route) (mkRequest meth ("/static/" ++ n))
     = (["static"], RespContent (if meth =? MethodHead then "" else data)).
Proof.
  intros Hrun Hin Hmatch Hopen Hidx. split.
  - assert (Hroute : exists h, route = PathPrefixHandler "/static/" h).
    { revert Hin Hmatch. invert_NewServer Hrun; simpl; intros Hin Hmatch;
        repeat (destruct Hin as [<- | Hin]; [try discriminate Hmatch|]);
        try contradiction; eexists; reflexivity. }
    destruct Hroute as (h & ->). reflexivity.
  - rewrite (static_route_inv _ _ _ _ _ _ _ _ Hrun Hin Hmatch).
    rewrite static_handler_valid_name
      by (assumption || apply (subFS_Open_inv _ _ _ _ Hopen)).
    rewrite Hopen. reflexivity.
Qed.


(** ** No file from outside the static subtree *)

(** A response that carries a file was read by one [Open] of the file
    system. *)
Lemma serveFile_content (r : Request) (root : FileSystem) (name : string)
    (redirect : bool) (body : string) :
  http.serveFile r root name redirect = RespContent body ->
  exists x data,
    http.Open root x = inr (fs.File data)
    /\ body = if Method r =? MethodHead then "" else data.
Proof.
  unfold http.serveFile, http.serveContent.
  destruct (HasSuffix (URLPath r) http.indexPage); [discriminate|].
  destruct (http.Open root name) as [e | [data|]] eqn:Hopen; [discriminate| |].
  - destruct redirect, (http.endsInSlash (URLPath r)); cbn;
      intros H; try discriminate H; injection H as <-; eauto.
  - destruct redirect, (http.endsInSlash (URLPath r)); cbn;
      try discriminate;
      destruct (http.Open root (TrimSuffix name "/" ++ http.indexPage))
        as [e | [data|]] eqn:Hindex;
      intros H; try discriminate H; injection H as <-; eauto.
Qed.

(** What opens under static is embedded under static. *)
Lemma static_Open_confined (sfs : fs.embed_FS) (x data : string) :
  http.Open (ioFS (fs.subFS (fs.Embed sfs) "static")) x
  = inr (fs.File data) ->
  exists full,
    fs.find sfs full = Some (fs.File data)
    /\ (full = "static"
        \/ exists n, full = ("static/" ++ n)%string /\ fs.ValidPath n = true).
Proof.
  unfold http.Open.
  set (x' := if x =? "/" then "." else TrimPrefix x "/").
  intros Hopen. apply subFS_Open_inv in Hopen as [Hvalid Hopen].
  cbn [fs.Open] in Hopen.
  destruct (fs.lookup sfs (path.Join "static" x')) as [node|] eqn:Hlook;
    [|discriminate Hopen].
  injection Hopen as ->. apply lookup_file in Hlook as [Hfind _].
  exists (path.Join "static" x'). split; [exact Hfind|].
  destruct (StaticRoute.ValidPath_elems x' Hvalid) as [-> | Helems].
  - left. reflexivity.
  - right. exists x'. split; [|exact Hvalid].
    apply StaticRoute.Join_valid; [reflexivity | exact Helems].
Qed.

(** Whatever the request, a file served on the static route is an
    embedded file named static or static/n with n a valid path: no
    request path, with [..] elements or otherwise, reaches a file outside
    the static subtree. *)
Theorem static_route_confined uni sfs w inst t s err route sm req labels body :
  NewServer uni sfs w inst = (t, (Some s, err)) ->
  In route (serverRoutes s) ->
  route_matcher route = PathPrefix "/static/" ->
  ServeHTTP sm (route_handler route) req = (labels, RespContent body) ->
  exists full data,
    fs.find sfs full = Some (fs.File data)
    /\ (full = "static"
        \/ exists n, full = ("static/" ++ n)%string /\ fs.ValidPath n = true)
    /\ body = if Method req =? MethodHead then "" else data.
Proof.
  intros Hrun Hin Hmatch.
  rewrite (static_route_inv _ _ _ _ _ _ _ _ Hrun Hin Hmatch).
  unfold staticHandler. cbn [ServeHTTP]. unfold instrument, http.stripPrefix.
  change ("/static/" =? "") with false. cbv iota.
  destruct (Nat.ltb _ _); [|discriminate].
  unfold http.fileServer. intros H. injection H as _ H.
  apply serveFile_content in H as (x & data & Hopen & ->).
  apply static_Open_confined in Hopen as (full & Hfind & Hfull).
  exists full, data. auto.
Qed.

(** ** Directories *)

Lemma substring_all (s : string) : substring 0 (String.length s) s = s.
Proof. induction s as [|c s IH]; simpl; [|rewrite IH]; reflexivity. Qed.

Lemma substring_tail (s : string) (k : nat) :
  k <= String.length s ->
  exists pre, s = (pre ++ substring k (String.length s - k) s)%string.
Proof.
  revert k. induction s as [|c s IH]; intros k Hk.
  - exists "". destruct k; reflexivity.
  - destruct k as [|k].
    + exists "". rewrite Nat.sub_0_r, substring_all. reflexivity.
    + simpl in Hk. destruct (IH k) as (pre & Hpre); [lia|].
      exists (String c pre). simpl. rewrite <- Hpre. reflexivity.
Qed.

Lemma HasSuffix_app (s suf : string) :
  HasSuffix s suf = true -> exists pre, s = (pre ++ suf)%string.
Proof.
  unfold HasSuffix. intros H. apply andb_true_iff in H as [Hlen Heq].
  apply Nat.leb_le in Hlen. apply String.eqb_eq in Heq.
  destruct (substring_tail s (String.length s - String.length suf))
    as (pre & Hpre); [lia|].
  exists pre.
  replace (String.length s - (String.length s - String.length suf))
    with (String.length suf) in Hpre by lia.
  rewrite Heq in Hpre. exact Hpre.
Qed.

Lemma last_app (pre : string) (c : ascii) (suf : string) :
  last (pre ++ String c suf) = last (String c suf).
Proof.
  induction pre as [|a pre IH]; [reflexivity|].
  change (last (String a (pre ++ String c suf)) = last (String c suf)).
  rewrite <- IH. destruct pre; reflexivity.
Qed.

Lemma endsInSlash_app (x : string) : http.endsInSlash (x ++ "/") = true.
Proof. unfold http.endsInSlash. rewrite last_app. reflexivity. Qed.

Lemma slash_not_index (x : string) :
  HasSuffix (x ++ "/") http.indexPage = false.
Proof.
  destruct (HasSuffix (x ++ "/") http.indexPage) eqn:H; [|reflexivity].
  apply HasSuffix_app in H as (pre & Hpre).
  assert (Hlast : last (x ++ "/") = last (pre ++ http.indexPage))
    by (rewrite Hpre; reflexivity).
  unfold http.indexPage in Hlast. rewrite !last_app in Hlast.
  discriminate Hlast.
Qed.

Lemma valid_no_slash_suffix (n : string) :
  forallb fs.validElem (splitSlash n) = true ->
  HasSuffix ("/" ++ n) "/" = false.
Proof.
  intros Helems.
  destruct (HasSuffix ("/" ++ n) "/") eqn:H; [|reflexivity].
  apply HasSuffix_app in H as (pre & Hpre).
  pose proof (StaticRoute.valid_not_endsInSlash n Helems) as Hno.
  rewrite Hpre, endsInSlash_app in Hno. discriminate Hno.
Qed.

Lemma Clean_rooted_slash (n : string) :
  forallb fs.validElem (splitSlash n) = true ->
  path.Clean ("/" ++ n ++ "/") = ("/" ++ n)%string.
Proof.
  intros H. unfold path.Clean.
  change (("/" ++ n ++ "/")%string =? "") with false.
  change (HasPrefix ("/" ++ n ++ "/") "/") with true.
  change (splitSlash ("/" ++ n ++ "/"))
    with ("" :: splitSlash (n ++ "/" ++ "")).
  rewrite StaticRoute.splitSlash_app.
  cbn [fold_left]. change (path.cleanStep true [] "") with (@nil string).
  rewrite fold_left_app.
  rewrite (StaticRoute.fold_cleanStep_valid true (splitSlash n) [] H).
  cbn [fold_left splitSlash].
  change (path.cleanStep true (rev (splitSlash n) ++ []) "")
    with (rev (splitSlash n) ++ [])%list.
  rewrite app_nil_r, rev_involutive, StaticRoute.joinSlash_splitSlash.
  reflexivity.
Qed.

(** A request for a directory with the slash at its end: the file
    index.html of the directory, if it is embedded as a file; a listing
    of the directory otherwise.  This holds for the directories under
    static/ and, on the path /static/ itself, for the static directory. *)
Theorem static_directory_index uni sfs w inst t s err route sm meth :
  NewServer uni sfs w inst = (t, (Some s, err)) ->
  In route (serverRoutes s) ->
  route_matcher route = PathPrefix "/static/" ->
  let staticHTML := fs.subFS (fs.Embed sfs) "static" in
  let answer index :=
    match fs.Open staticHTML index with
    | inr (fs.File data) =>
        RespContent (if meth =? MethodHead then "" else data)
    | _ => RespDirList
    end in
  (fs.Open staticHTML "." = inr fs.Dir ->
   ServeHTTP sm (route_handler route) (mkRequest meth "/static/")
   = (["static"], answer "index.html"))
  /\ (forall n,
         n <> "." ->
         fs.Open staticHTML n = inr fs.Dir ->
         ServeHTTP sm (route_handler route)
           (mkRequest meth ("/static/" ++ n ++ "/"))
         = (["static"], answer (n ++ "/index.html")%string)).
Proof.
  intros Hrun Hin Hmatch staticHTML answer. subst answer.
  rewrite (static_route_inv _ _ _ _ _ _ _ _ Hrun Hin Hmatch).
  fold staticHTML. unfold staticHandler. cbn [ServeHTTP].
  unfold instrument, http.stripPrefix.
  change ("/static/" =? "") with false. cbn [URLPath Method]. split.
  - intros Hopen.
    change (TrimPrefix "/static/" "/static/") with "".
    change (Nat.ltb (String.length "") (String.length "/static/")) with true.
    unfold http.fileServer, http.serveFile, http.serveContent.
    cbn [URLPath Method].
    change (HasPrefix "" "/") with false. cbv iota.
    change (HasSuffix ("/" ++ "") http.indexPage) with false.
    assert (Hclean : path.Clean ("/" ++ "") = "/") by reflexivity.
    rewrite Hclean. unfold http.Open.
    change ("/" =? "/") with true. cbv iota. rewrite Hopen.
    reflexivity.
  - intros n Hdot Hopen.
    destruct (subFS_Open_inv _ _ _ _ Hopen) as [Hvalid _].
    destruct (StaticRoute.ValidPath_elems n Hvalid) as [-> | Helems];
      [contradiction|].
    destruct (StaticRoute.valid_head n Helems) as (c & n' & Hn & Hc).
    change (TrimPrefix ("/static/" ++ n ++ "/") "/static/")
      with (n ++ "/")%string.
    replace (Nat.ltb (String.length (n ++ "/"))
               (String.length ("/static/" ++ n ++ "/")))
      with true by (symmetry; apply Nat.ltb_lt; simpl; lia).
    unfold http.fileServer, http.serveFile, http.serveContent.
    cbn [URLPath Method].
    assert (Hhead : HasPrefix (n ++ "/") "/" = false).
    { rewrite Hn. unfold HasPrefix. cbn [cutPrefix append].
      rewrite Ascii.eqb_sym, Hc. reflexivity. }
    rewrite Hhead.
    change ("/" ++ n ++ "/")%string with (("/" ++ n) ++ "/")%string.
    rewrite slash_not_index, endsInSlash_app.
    change (("/" ++ n) ++ "/")%string with ("/" ++ n ++ "/")%string.
    rewrite Clean_rooted_slash by exact Helems.
    unfold http.Open at 1.
    assert (Hroot : (("/" ++ n)%string =? "/") = false)
      by (rewrite Hn; reflexivity).
    rewrite Hroot. change (TrimPrefix ("/" ++ n) "/") with n.
    rewrite Hopen. cbn [fs.isDir andb negb].
    unfold TrimSuffix. rewrite valid_no_slash_suffix by exact Helems.
    unfold http.Open.
    assert (Hidx : ((("/" ++ n) ++ http.indexPage)%string =? "/") = false)
      by (rewrite Hn; reflexivity).
    rewrite Hidx.
    change (TrimPrefix (("/" ++ n) ++ http.indexPage) "/")
      with (n ++ "/index.html")%string.
    destruct (fs.Open staticHTML (n ++ "/index.html")) as [e | [data|]];
      reflexivity.
Qed.

(** ** The index page *)

(** A request on the static route whose path ends in /index.html is
    redirected to [./], whether such a file is embedded or not: no file
    is served under the name index.html. *)
Theorem static_index_redirect uni sfs w inst t s err route sm meth p :
  NewServer uni sfs w inst = (t, (Some s, err)) ->
  In route (serverRoutes s) ->
  route_matcher route = PathPrefix "/static/" ->
  HasPrefix p "/" = false ->
  HasSuffix ("/" ++ p) http.indexPage = true ->
  ServeHTTP sm (route_handler route) (mkRequest meth ("/static/" ++ p))
  = (["static"], RespRedirect "./").
Proof.
  intros Hrun Hin Hmatch Hhead Hidx.
  rewrite (static_route_inv _ _ _ _ _ _ _ _ Hrun Hin Hmatch).
  unfold staticHandler. cbn [ServeHTTP]. unfold instrument, http.stripPrefix.
  change ("/static/" =? "") with false. cbn [URLPath Method].
  change (TrimPrefix ("/static/" ++ p) "/static/") with p.
  replace (Nat.ltb (String.length p) (String.length ("/static/" ++ p)))
    with true by (symmetry; apply Nat.ltb_lt; simpl; lia).
  unfold http.fileServer, http.serveFile. cbn [URLPath Method].
  rewrite Hhead, Hidx. reflexivity.
Qed.

End StaticAssets.

(** ** The further properties at sample surroundings *)

Lemma NewServer_error_from_registry_witness :
  let run := NewServer sampleUni sampleAssets sampleWorld
               (registryWithout [Cart; Shipping]) in
  errorOf (snd run) = Some (notFound Cart)
  /\ serverOf (snd run) = None
  /\ exists svc,
       snd (Get (registryWithout [Cart; Shipping]) svc) = Some (notFound Cart)
       /\ In svc resolutionOrder
       /\ forall ev, In ev (fst run) -> exists svc', ev = EvGet svc'.
Proof.
  cbv zeta. split; [reflexivity|].
  apply (NewServer_error_from_registry sampleUni sampleAssets sampleWorld
           (registryWithout [Cart; Shipping])); reflexivity.
Defined.

Lemma NewServer_calls_witness :
  filter isCall (fst sampleRun)
  = map EvGet resolutionOrder
    ++ [EvGetenv "ENV_PLATFORM"; EvLookupHost metadataHost; EvHostname].
Proof.
  eapply (NewServer_calls sampleUni sampleAssets sampleWorld registryOK
            (fst sampleRun) _ None).
  reflexivity.
Defined.

Lemma gcp_profile_iff_witness :
  exists s,
    serverOf (snd sampleRun) = Some s
    /\ (platform s = gcpProfile
        <-> snd (LookupHost sampleWorld metadataHost) = None
            \/ Getenv sampleWorld "ENV_PLATFORM" = "gcp")
    /\ (platform s = gcpProfile \/ platform s = localProfile).
Proof.
  eexists. split; [reflexivity|].
  apply (gcp_profile_iff sampleUni sampleAssets sampleWorld registryOK
           (fst sampleRun) _ None).
  reflexivity.
Defined.

Lemma platform_notice_iff_witness :
  let run := NewServer sampleUni sampleAssets
               (worldOf "aws" ([], noSuchHost) ("frontend-0", None))
               registryOK in
  filter isPrintln (fst run) = [EvPrintln platformNotice]
  /\ (In (EvPrintln platformNotice) (fst run)
      <-> "aws" = "" \/ ~ In "aws" validEnvs).
Proof.
  cbv zeta.
  eapply (platform_notice_iff sampleUni sampleAssets
            (worldOf "aws" ([], noSuchHost) ("frontend-0", None))
            registryOK _ _ None).
  reflexivity.
Defined.

Lemma NewServer_debug_log_witness :
  let run := NewServer sampleUni sampleAssets
               (worldOf "local" (["169.254.169.254"], None)
                  ("", Some (mkError "no hostname")))
               registryOK in
  filter isDebug (fst run)
  = [EvDebug detectedMessage [("address", LogStrings ["169.254.169.254"])];
     EvDebug "ENV_PLATFORM" [("platform", LogString "gcp")];
     EvDebug hostnameMessage []].
Proof.
  cbv zeta.
  eapply (NewServer_debug_log sampleUni sampleAssets
            (worldOf "local" (["169.254.169.254"], None)
               ("", Some (mkError "no hostname")))
            registryOK _ _ None).
  reflexivity.
Defined.

Lemma hostname_kept_witness :
  exists s,
    serverOf (snd sampleRun) = Some s
    /\ (snd (Hostname sampleWorld) = None
        -> hostname s = fst (Hostname sampleWorld))
    /\ (hostname s <> "unknown" -> snd (Hostname sampleWorld) = None).
Proof.
  eexists. split; [reflexivity|].
  apply (hostname_kept sampleUni sampleAssets sampleWorld registryOK
           (fst sampleRun) _ None).
  reflexivity.
Defined.

Lemma Run_after_NewServer_witness :
  exists s,
    serverOf (snd sampleRun) = Some s
    /\ Run (sampleNetwork true) s ":8080"
       = ([EvListener "boutique" (mkListenerOptions ":8080")],
          Some (mkError "address already in use"))
    /\ snd (Run (sampleNetwork false) s ":8080") <> None.
Proof.
  eexists. split; [reflexivity|]. split.
  - apply (proj1 (Run_after_NewServer sampleUni sampleAssets sampleWorld
                    registryOK (fst sampleRun) _ None (sampleNetwork true)
                    ":8080" eq_refl)).
    reflexivity.
  - apply (proj2 (proj2 (Run_after_NewServer sampleUni sampleAssets
                           sampleWorld registryOK (fst sampleRun) _ None
                           (sampleNetwork false) ":8080" eq_refl))).
Defined.

Lemma missing_asset_not_found_witness :
  exists s route,
    serverOf (snd sampleRun) = Some s
    /\ In route (serverRoutes s)
    /\ ServeHTTP sampleMethods (route_handler route)
         (mkRequest MethodGet "/static/nope.css")
       = (["static"], RespError fs.ErrNotExist).
Proof.
  eexists. eexists. split; [reflexivity|].
  split; [do 8 right; left; reflexivity|].
  eapply (StaticAssets.missing_asset_not_found sampleUni sampleAssets
            sampleWorld registryOK (fst sampleRun) _ None _ sampleMethods
            MethodGet "nope.css");
    try reflexivity.
  - do 8 right. left. reflexivity.
  - discriminate.
Defined.

Lemma static_asset_any_method_witness :
  exists s route,
    serverOf (snd sampleRun) = Some s
    /\ In route (serverRoutes s)
    /\ route_methods route = []
    /\ ServeHTTP sampleMethods (route_handler route)
         (mkRequest MethodHead "/static/a.txt")
       = (["static"], RespContent "").
Proof.
  eexists. eexists. split; [reflexivity|].
  split; [do 8 right; left; reflexivity|].
  eapply (StaticAssets.static_asset_any_method sampleUni sampleAssets
            sampleWorld registryOK (fst sampleRun) _ None _ sampleMethods
            MethodHead "a.txt" "hello");
    try reflexivity.
  do 8 right. left. reflexivity.
Defined.


Lemma static_route_confined_witness :
  exists full data,
    fs.find sampleAssets full = Some (fs.File data)
    /\ (full = "static"
        \/ exists n, full = ("static/" ++ n)%string /\ fs.ValidPath n = true)
    /\ "body {}" = (if MethodGet =? MethodHead then "" else data).
Proof.
  refine (StaticAssets.static_route_confined sampleUni sampleAssets
            sampleWorld registryOK (fst sampleRun) _ None
            (PathPrefixHandler "/static/"
               (staticHandler (fs.subFS (fs.Embed sampleAssets) "static")))
            sampleMethods
            (mkRequest MethodGet "/static/x/../styles/./styles.css")
            ["static"] "body {}" eq_refl _ eq_refl eq_refl).
  do 8 right. left. reflexivity.
Defined.

Lemma static_directory_index_witness :
  exists s route,
    serverOf (snd sampleRun) = Some s
    /\ In route (serverRoutes s)
    /\ ServeHTTP sampleMethods (route_handler route)
         (mkRequest MethodGet "/static/")
       = (["static"], RespContent "<html></html>")
    /\ ServeHTTP sampleMethods (route_handler route)
         (mkRequest MethodGet "/static/styles/")
       = (["static"], RespDirList).
Proof.
  eexists. eexists. split; [reflexivity|].
  split; [do 8 right; left; reflexivity|].
  destruct (StaticAssets.static_directory_index sampleUni sampleAssets
              sampleWorld registryOK (fst sampleRun) _ None
              (PathPrefixHandler "/static/"
                 (staticHandler (fs.subFS (fs.Embed sampleAssets) "static")))
              sampleMethods MethodGet eq_refl)
    as [Hroot Hsub]; try reflexivity.
  - do 8 right. left. reflexivity.
  - split.
    + apply Hroot. reflexivity.
    + apply (Hsub "styles"); [discriminate | reflexivity].
Defined.

Lemma static_index_redirect_witness :
  exists s route,
    serverOf (snd sampleRun) = Some s
    /\ In route (serverRoutes s)
    /\ ServeHTTP sampleMethods (route_handler route)
         (mkRequest MethodGet "/static/styles/index.html")
       = (["static"], RespRedirect "./").
Proof.
  eexists. eexists. split; [reflexivity|].
  split; [do 8 right; left; reflexivity|].
  eapply (StaticAssets.static_index_redirect sampleUni sampleAssets
            sampleWorld registryOK (fst sampleRun) _ None _ sampleMethods
            MethodGet "styles/index.html");
    try reflexivity.
  do 8 right. left. reflexivity.
Defined.
